(** * linkin: linkerd <-> Zipkin / OpenCensus trace-context codec

    A shallow embedding of [linkin.go] (package [linkin]: [FromL5D],
    [ToL5D]) and of the propagation format of [example/example.go]
    ([sample], [SpanContextFromRequest], [SpanContextToRequest]),
    together with the parts of the Go standard library they call
    ([encoding/hex], [encoding/base64], [encoding/binary],
    [net/http.Header]). *)

From Stdlib Require Import ZArith List Lia.
From Stdlib Require Import Strings.Ascii Strings.String Strings.Byte.
From Stdlib Require Import Floats.SpecFloat.
From stdpp Require Import base option list strings gmap.

Local Open Scope Z_scope.

(** ** Bytes and Go strings

    A Go [byte] is [Byte.byte]; a [[]byte] is a [list byte]; a Go [string]
    is a sequence of bytes, here [String.string]. *)

Definition byte_to_Z (b : byte) : Z := Z.of_N (Byte.to_N b).

(** The conversion [byte(x)] of an unsigned integer: keeps the low 8 bits. *)
Definition byte_of_Z (z : Z) : byte :=
  match Byte.of_N (Z.to_N (z mod 256)) with
  | Some b => b
  | None => x00
  end.

Definition char_code (c : ascii) : Z := Z.of_N (N_of_ascii c).

(** [make([]byte, n)]: [n] zero bytes. *)
Definition make (n : nat) : list byte := repeat x00 n.

(** [s[lo:hi]] for [lo <= hi <= len(s)]. *)
Definition slice (s : list byte) (lo hi : nat) : list byte :=
  firstn (hi - lo) (skipn lo s).

(** The builtin [copy(dst[lo:hi], src)]: copies [min(hi-lo, len(src))]
    bytes to [dst] from offset [lo] on, and leaves the rest of [dst]. *)
Definition copy (dst : list byte) (lo hi : nat) (src : list byte) : list byte :=
  let n := Nat.min (hi - lo) (length src) in
  firstn lo dst ++ firstn n src ++ skipn (lo + n) dst.

(** [dst[i] = b]: a run-time panic (here [None]) when [i] is out of range. *)
Definition store (dst : list byte) (i : nat) (b : byte) : option (list byte) :=
  if (i <? length dst)%nat then Some (<[i:=b]> dst) else None.

(** [for i, b := range src { dst[off+i] = b }] *)
Fixpoint range_store (dst : list byte) (off : nat) (src : list byte)
  : option (list byte) :=
  match src with
  | [] => Some dst
  | b :: src' =>
      match store dst off b with
      | Some dst' => range_store dst' (S off) src'
      | None => None
      end
  end.

(** ** encoding/hex *)

Module hex.

Definition hextable : string := "0123456789abcdef".

Definition hexdigit (i : Z) : ascii :=
  match String.get (Z.to_nat i) hextable with
  | Some c => c
  | None => "0"%char
  end.

(** [hex.EncodeToString]: two lower-case digits per byte. *)
Fixpoint EncodeToString (src : list byte) : string :=
  match src with
  | [] => EmptyString
  | v :: src' =>
      String (hexdigit (Z.shiftr (byte_to_Z v) 4))
        (String (hexdigit (Z.land (byte_to_Z v) 15)) (EncodeToString src'))
  end.

(** [fromHexChar] *)
Definition fromHexChar (c : ascii) : option Z :=
  let n := char_code c in
  if (48 <=? n) && (n <=? 57) then Some (n - 48)
  else if (97 <=? n) && (n <=? 102) then Some (n - 97 + 10)
  else if (65 <=? n) && (n <=? 70) then Some (n - 65 + 10)
  else None.

(** [hex.DecodeString]: [None] stands for a non-nil error
    ([InvalidByteError] or [ErrLength]). *)
Fixpoint DecodeString (s : string) : option (list byte) :=
  match s with
  | EmptyString => Some []
  | String _ EmptyString => None
  | String c0 (String c1 s') =>
      match fromHexChar c0, fromHexChar c1 with
      | Some a, Some b =>
          match DecodeString s' with
          | Some bs => Some (byte_of_Z (Z.lor (Z.shiftl a 4) b) :: bs)
          | None => None
          end
      | _, _ => None
      end
  end.

End hex.

(** ** encoding/base64, [StdEncoding] (RFC 4648 alphabet, padded) *)

Module base64.

Definition encodeStd : string :=
  "ABCDEFGHIJKLMNOPQRSTUVWXYZabcdefghijklmnopqrstuvwxyz0123456789+/".

Definition padChar : ascii := "="%char.

(** [enc.encode[i]] *)
Definition encode (i : Z) : ascii :=
  match String.get (Z.to_nat i) encodeStd with
  | Some c => c
  | None => "000"%char
  end.

Fixpoint index_from (c : ascii) (s : string) (i : Z) : option Z :=
  match s with
  | EmptyString => None
  | String d s' => if Ascii.eqb c d then Some i else index_from c s' (i + 1)
  end.

(** [enc.decodeMap[c]]: [None] stands for the entry [0xff]. *)
Definition decodeMap (c : ascii) : option Z := index_from c encodeStd 0.

(** [EncodeToString]: three bytes give four characters; a last group of
    one or two bytes is padded with [=]. *)
Fixpoint EncodeToString (src : list byte) : string :=
  match src with
  | [] => EmptyString
  | [b0] =>
      let val := Z.shiftl (byte_to_Z b0) 16 in
      String (encode (Z.land (Z.shiftr val 18) 63))
        (String (encode (Z.land (Z.shiftr val 12) 63))
           (String padChar (String padChar EmptyString)))
  | [b0; b1] =>
      let val := Z.lor (Z.shiftl (byte_to_Z b0) 16) (Z.shiftl (byte_to_Z b1) 8) in
      String (encode (Z.land (Z.shiftr val 18) 63))
        (String (encode (Z.land (Z.shiftr val 12) 63))
           (String (encode (Z.land (Z.shiftr val 6) 63))
              (String padChar EmptyString)))
  | b0 :: b1 :: b2 :: src' =>
      let val := Z.lor (Z.lor (Z.shiftl (byte_to_Z b0) 16)
                              (Z.shiftl (byte_to_Z b1) 8)) (byte_to_Z b2) in
      String (encode (Z.land (Z.shiftr val 18) 63))
        (String (encode (Z.land (Z.shiftr val 12) 63))
           (String (encode (Z.land (Z.shiftr val 6) 63))
              (String (encode (Z.land val 63)) (EncodeToString src'))))
  end.

(** The decoder skips carriage returns and line feeds wherever they are. *)
Definition is_newline (c : ascii) : bool :=
  Ascii.eqb c "010"%char || Ascii.eqb c "013"%char.

Fixpoint strip_newlines (s : string) : string :=
  match s with
  | EmptyString => EmptyString
  | String c s' =>
      if is_newline c then strip_newlines s' else String c (strip_newlines s')
  end.

(** The 24-bit value of a quantum and its three bytes. *)
Definition quantum (d0 d1 d2 d3 : Z) : Z :=
  Z.lor (Z.lor (Z.lor (Z.shiftl d0 18) (Z.shiftl d1 12)) (Z.shiftl d2 6)) d3.

(** Quanta of four characters; padding only closes the input, after two
    or three characters of the last quantum (the decoder is not strict:
    the unused low bits of a padded quantum are dropped unchecked). *)
Fixpoint decodeQuanta (s : string) : option (list byte) :=
  match s with
  | EmptyString => Some []
  | String c0 (String c1 (String c2 (String c3 s'))) =>
      match decodeMap c0, decodeMap c1 with
      | Some d0, Some d1 =>
          match decodeMap c2, decodeMap c3 with
          | Some d2, Some d3 =>
              let val := quantum d0 d1 d2 d3 in
              match decodeQuanta s' with
              | Some bs =>
                  Some (byte_of_Z (Z.shiftr val 16) :: byte_of_Z (Z.shiftr val 8)
                          :: byte_of_Z val :: bs)
              | None => None
              end
          | Some d2, None =>
              let val := quantum d0 d1 d2 0 in
              if Ascii.eqb c3 padChar
              then match s' with
                   | EmptyString =>
                       Some [byte_of_Z (Z.shiftr val 16); byte_of_Z (Z.shiftr val 8)]
                   | _ => None
                   end
              else None
          | None, _ =>
              let val := quantum d0 d1 0 0 in
              if Ascii.eqb c2 padChar && Ascii.eqb c3 padChar
              then match s' with
                   | EmptyString => Some [byte_of_Z (Z.shiftr val 16)]
                   | _ => None
                   end
              else None
          end
      | _, _ => None
      end
  | _ => None
  end.

(** [DecodeString]: [None] stands for a non-nil [CorruptInputError]. *)
Definition DecodeString (s : string) : option (list byte) :=
  decodeQuanta (strip_newlines s).

End base64.

(** ** encoding/binary *)

Module binary.

(** [binary.BigEndian.Uint64(b)]: reads [b[0..7]]. Its only caller passes a
    16-byte array, so the bounds check [_ = b[7]] never fires. *)
Definition BigEndian_Uint64 (b : list byte) : Z :=
  let at_ (i : nat) := byte_to_Z (nth i b x00) in
  Z.lor (at_ 7%nat)
    (Z.lor (Z.shiftl (at_ 6%nat) 8)
       (Z.lor (Z.shiftl (at_ 5%nat) 16)
          (Z.lor (Z.shiftl (at_ 4%nat) 24)
             (Z.lor (Z.shiftl (at_ 3%nat) 32)
                (Z.lor (Z.shiftl (at_ 2%nat) 40)
                   (Z.lor (Z.shiftl (at_ 1%nat) 48)
                      (Z.shiftl (at_ 0%nat) 56))))))).

End binary.

(** The unsigned integer that a sequence of bytes denotes when it is read
    in big-endian order, most significant byte first. *)
Definition big_endian_value (bs : list byte) : Z :=
  fold_left (fun acc b => acc * 256 + byte_to_Z b) bs 0.

(** ** net/http.Header

    A header is a map from canonical keys to the list of their values;
    [Get] and [Set] canonicalize the key they are given. *)

Module http.

Abbreviation Header := (gmap string (list string)).

Fixpoint mem_char (c : ascii) (s : string) : bool :=
  match s with
  | EmptyString => false
  | String d s' => Ascii.eqb c d || mem_char c s'
  end.

Definition is_lower (c : ascii) : bool :=
  (97 <=? char_code c) && (char_code c <=? 122).
Definition is_upper (c : ascii) : bool :=
  (65 <=? char_code c) && (char_code c <=? 90).
Definition is_digit (c : ascii) : bool :=
  (48 <=? char_code c) && (char_code c <=? 57).

(** [validHeaderFieldByte]: the token characters of RFC 7230. *)
Definition validHeaderFieldByte (c : ascii) : bool :=
  is_lower c || is_upper c || is_digit c || mem_char c "!#$%&'*+-.^_`|~".

Fixpoint all_valid (s : string) : bool :=
  match s with
  | EmptyString => true
  | String c s' => validHeaderFieldByte c && all_valid s'
  end.

Definition toLower : Z := 32.

(** First letter and every letter after a dash in upper case, the others
    in lower case. *)
Fixpoint canonicalize (upper : bool) (s : string) : string :=
  match s with
  | EmptyString => EmptyString
  | String c s' =>
      let c' :=
        if upper && is_lower c then ascii_of_N (Z.to_N (char_code c - toLower))
        else if negb upper && is_upper c then ascii_of_N (Z.to_N (char_code c + toLower))
        else c in
      String c' (canonicalize (Ascii.eqb c' "-"%char) s')
  end.

(** [textproto.CanonicalMIMEHeaderKey]: a key with a byte that is not a
    token character is returned as it is. *)
Definition CanonicalMIMEHeaderKey (s : string) : string :=
  if all_valid s then canonicalize true s else s.

(** [Header.Get]: the first value of the key, or the empty string. *)
Definition Header_Get (h : Header) (key : string) : string :=
  match h !! CanonicalMIMEHeaderKey key with
  | Some (v :: _) => v
  | _ => EmptyString
  end.

(** [Header.Set]: replaces the values of the key by the one given. *)
Definition Header_Set (h : Header) (key value : string) : Header :=
  <[CanonicalMIMEHeaderKey key := [value]]> h.

(** An [*http.Request], of which the codec touches the header alone. *)
Record Request := { Header_ : Header }.

End http.

(** How a call ends: it returns, or a run-time panic unwinds it. *)
Inductive outcome := Returned | Panicked.

(** ** package linkin ([linkin.go]) *)

Module linkin.
Import http.

Definition l5dHeaderTrace : string := "l5d-ctx-trace".
Definition zipkinHeaderTraceID : string := "X-B3-TraceId".
Definition zipkinHeaderSpanID : string := "X-B3-SpanId".
Definition zipkinHeaderParentSpanID : string := "X-B3-ParentSpanId".
Definition zipkinHeaderSampled : string := "X-B3-Sampled".
Definition zipkinHeaderFlags : string := "X-B3-Flags".

Definition l5dTraceFlags : list byte := [x00; x00; x00; x00; x00; x00; x00; x06].

Fixpoint zeros (n : nat) : string :=
  match n with
  | O => EmptyString
  | S n' => String "0"%char (zeros n')
  end.

(** [fmt.Sprintf("%016x", b)] for a byte slice [b]: its hexadecimal
    digits, padded on the left with zeros to sixteen characters. *)
Definition Sprintf_016x (b : list byte) : string :=
  let s := hex.EncodeToString b in
  (zeros (16 - String.length s) ++ s)%string.

(** The header map is mutated in place: the result is the map when the
    call returns. The slices taken from [b] are in range by the guard on
    its length. *)
Definition FromL5D (headers : Header) : Header :=
  match base64.DecodeString (Header_Get headers l5dHeaderTrace) with
  | None => headers
  | Some b =>
      if negb (length b =? 32)%nat && negb (length b =? 40)%nat then headers
      else
        let headers :=
          if (length b =? 40)%nat
          then Header_Set headers zipkinHeaderTraceID
                 (Sprintf_016x (slice b 32 (length b)) ++ Sprintf_016x (slice b 16 24))%string
          else Header_Set headers zipkinHeaderTraceID (Sprintf_016x (slice b 16 24)) in
        let headers :=
          Header_Set headers zipkinHeaderSpanID (hex.EncodeToString (slice b 0 8)) in
        let parentID := hex.EncodeToString (slice b 8 16) in
        if negb (String.eqb parentID EmptyString)
        then Header_Set headers zipkinHeaderParentSpanID parentID
        else headers
  end.

(** The header map is shared with the caller: the result carries its
    state when the call ends, whichever way it ends. [filled] is the array
    [l5dctx] after the five loops, or [None] when a store panicked. *)
Definition ToL5D (headers : Header) : outcome * Header :=
  match hex.DecodeString (Header_Get headers zipkinHeaderTraceID) with
  | None => (Returned, headers)
  | Some traceID =>
  match hex.DecodeString (Header_Get headers zipkinHeaderSpanID) with
  | None => (Returned, headers)
  | Some spanID =>
  match hex.DecodeString (Header_Get headers zipkinHeaderParentSpanID) with
  | None => (Returned, headers)
  | Some parentID =>
      if negb ((length traceID =? 8)%nat || (length traceID =? 16)%nat)
         || negb (length spanID =? 8)%nat
      then (Returned, headers)
      else
        let filled : option (list byte) :=
          l5dctx ← Some (make (24 + length traceID));
          l5dctx ← range_store l5dctx 0 spanID;
          l5dctx ← (if (length parentID =? 8)%nat
                    then range_store l5dctx 8 parentID else Some l5dctx);
          l5dctx ← range_store l5dctx 16 (slice traceID 0 8);
          l5dctx ← range_store l5dctx 24 l5dTraceFlags;
          if (length traceID =? 16)%nat
          then range_store l5dctx 32 traceID else Some l5dctx in
        match filled with
        | Some l5dctx =>
            (Returned, Header_Set headers l5dHeaderTrace (base64.EncodeToString l5dctx))
        | None => (Panicked, headers)
        end
  end end end.

End linkin.

(** ** The propagation format of [example/example.go] *)

Module example.
Import http.

Definition l5dHeaderTrace : string := "l5d-ctx-trace".
Definition l5dHeaderSample : string := "l5d-sample".
Definition l5dForceSample : string := "1.0".

Definition l5dTraceFlags : list byte := [x00; x00; x00; x00; x00; x00; x00; x06].

(** [trace.SpanContext] of OpenCensus: [TraceID [16]byte],
    [SpanID [8]byte], [TraceOptions uint32]. *)
Record SpanContext := {
  TraceID : list byte;
  SpanID : list byte;
  TraceOptions : Z
}.

(** [trace.SpanContext{}] *)
Definition zeroSpanContext : SpanContext :=
  {| TraceID := make 16; SpanID := make 8; TraceOptions := 0 |}.

(** [sc.IsSampled()]: [TraceOptions & 1 == 1]. *)
Definition IsSampled (sc : SpanContext) : bool :=
  Z.land (TraceOptions sc) 1 =? 1.

(** A [float64] is an IEEE 754 binary64 number. *)
Definition float64 : Type := spec_float.
Definition prec : Z := 53.
Definition emax : Z := 1024.

(** The conversion [float64(n)] of an integer and the constants of
    [sample]. *)
Definition float64_of_Z (n : Z) : float64 := binary_normalize prec emax n 0 false.
Definition f0_0 : float64 := S754_zero false.
Definition f1_0 : float64 := Eval cbv in float64_of_Z 1.
Definition f10000 : float64 := Eval cbv in float64_of_Z 10000.

Definition wrap64 (z : Z) : Z := z mod 2 ^ 64.

(** The three [return] statements of [sample]. *)
Inductive sample_return := ReturnFalse | ReturnTrue | ReturnProbabilistic.

Section Process.

(** [sampleSalt = rand.Uint64()], drawn once when the process starts. *)
Variable sampleSalt : Z.

(** [strconv.ParseFloat(s, 64)]: [None] stands for a non-nil error. *)
Variable ParseFloat : string -> option float64.

(** [rate >= 0.0] is [0.0 <= rate]; a comparison with a NaN is false. *)
Definition sample (rate : float64) (traceID : Z) : bool :=
  if SFleb f0_0 rate (* rate >= 0.0 *) then false
  else if SFleb rate f1_0 (* rate <= 1.0 *) then true
  else
    let v := Z.lxor traceID sampleSalt in
    let v := if v <? 0 then wrap64 (- v) else v in
    SFltb (float64_of_Z (v mod 10000)) (SFmul prec emax rate f10000).

(** Which [return] of [sample] a rate runs into: the conditions are
    those of [sample], in its order. *)
Definition sample_path (rate : float64) : sample_return :=
  if SFleb f0_0 rate then ReturnFalse
  else if SFleb rate f1_0 then ReturnTrue
  else ReturnProbabilistic.

(** The slices taken from [b] are in range by the guard on its length;
    [err == nil && sample(...)] calls [sample] only when the rate parsed. *)
Definition SpanContextFromRequest (r : Request) : SpanContext * bool :=
  let ctx := zeroSpanContext in
  match base64.DecodeString (Header_Get (Header_ r) l5dHeaderTrace) with
  | None => (ctx, false)
  | Some b =>
      if negb (length b =? 32)%nat && negb (length b =? 40)%nat then (ctx, false)
      else
        let ctx :=
          if (length b =? 40)%nat
          then {| TraceID := copy (TraceID ctx) 0 8 (slice b 32 (length b));
                  SpanID := SpanID ctx; TraceOptions := TraceOptions ctx |}
          else ctx in
        let ctx := {| TraceID := copy (TraceID ctx) 8 16 (slice b 16 24);
                      SpanID := SpanID ctx; TraceOptions := TraceOptions ctx |} in
        let ctx := {| TraceID := TraceID ctx;
                      SpanID := copy (SpanID ctx) 0 8 (slice b 0 8);
                      TraceOptions := TraceOptions ctx |} in
        let ctx :=
          match ParseFloat (Header_Get (Header_ r) l5dHeaderSample) with
          | Some rate =>
              if sample rate (binary.BigEndian_Uint64 (TraceID ctx))
              then {| TraceID := TraceID ctx; SpanID := SpanID ctx;
                      TraceOptions := 1 |}
              else ctx
          | None => ctx
          end in
        (ctx, true)
  end.


(** The request's header map is mutated in place: the result is the
    request afterwards. *)
Definition SpanContextToRequest (sc : SpanContext) (r : Request) : Request :=
  let l5dctx := make 40 in
  let l5dctx := copy l5dctx 0 8 (SpanID sc) in
  let l5dctx := copy l5dctx 16 24 (slice (TraceID sc) 8 16) in
  let l5dctx := copy l5dctx 24 32 l5dTraceFlags in
  let l5dctx := copy l5dctx 32 40 (slice (TraceID sc) 0 8) in
  let r := {| Header_ := Header_Set (Header_ r) l5dHeaderTrace
                           (base64.EncodeToString l5dctx) |} in
  if IsSampled sc
  then {| Header_ := Header_Set (Header_ r) l5dHeaderSample l5dForceSample |}
  else r.

End Process.

End example.

(** ** Sample data *)

Module samples.
Import http.

(** B3 headers with a 128-bit trace id. *)
Definition b3_trace128 : Header :=
  Header_Set
    (Header_Set ∅ linkin.zipkinHeaderTraceID "000102030405060708090a0b0c0d0e0f")
    linkin.zipkinHeaderSpanID "0102030405060708".

(** B3 headers with a 64-bit trace id. *)
Definition b3_trace64 : Header :=
  Header_Set
    (Header_Set ∅ linkin.zipkinHeaderTraceID "0000000000000042")
    linkin.zipkinHeaderSpanID "0102030405060708".

(** B3 headers whose span id is too short. *)
Definition b3_span_short : Header :=
  Header_Set
    (Header_Set ∅ linkin.zipkinHeaderTraceID "0000000000000042")
    linkin.zipkinHeaderSpanID "01020304".

(** The 32-byte wire form: span id [0102030405060708], no parent,
    trace id [0x42], the flags of linkerd. *)
Definition wire32 : list byte :=
  [x01; x02; x03; x04; x05; x06; x07; x08;
   x00; x00; x00; x00; x00; x00; x00; x00;
   x00; x00; x00; x00; x00; x00; x00; x42;
   x00; x00; x00; x00; x00; x00; x00; x06].

(** The 40-byte wire form of the same ids, with a high trace-id half. *)
Definition wire40 : list byte :=
  wire32 ++ [xa0; xa1; xa2; xa3; xa4; xa5; xa6; xa7].

Definition l5d_wire32 : Header :=
  Header_Set ∅ linkin.l5dHeaderTrace (base64.EncodeToString wire32).

Definition l5d_wire40 : Header :=
  Header_Set
    (Header_Set ∅ linkin.l5dHeaderTrace (base64.EncodeToString wire40))
    example.l5dHeaderSample "-1".

(** A header cut short: 31 bytes. *)
Definition l5d_short : Header :=
  Header_Set ∅ linkin.l5dHeaderTrace (base64.EncodeToString (removelast wire32)).

Definition span_context : example.SpanContext :=
  {| example.TraceID := [xa0; xa1; xa2; xa3; xa4; xa5; xa6; xa7;
                         x00; x00; x00; x00; x00; x00; x00; x42];
     example.SpanID := [x01; x02; x03; x04; x05; x06; x07; x08];
     example.TraceOptions := 1 |}.

Definition minus_one : example.float64 := Eval cbv in example.float64_of_Z (-1).

(** [strconv.ParseFloat] on the few literals used here. *)
Definition ParseFloat (s : string) : option example.float64 :=
  if String.eqb s "1.0" then Some example.f1_0
  else if String.eqb s "-1" then Some minus_one
  else if String.eqb s "NaN" then Some S754_nan
  else None.

Definition sampleSalt : Z := 0x5DEECE66D.


End samples.

(** * Properties *)

(** ** Bytes and bit arithmetic *)

Lemma byte_to_Z_range (b : byte) : 0 <= byte_to_Z b < 256.
Proof.
  unfold byte_to_Z. pose proof (Byte.to_N_bounded b) as Hb.
  lia.
Qed.

Lemma byte_of_to_Z (b : byte) : byte_of_Z (byte_to_Z b) = b.
Proof.
  unfold byte_of_Z. rewrite Z.mod_small by apply byte_to_Z_range.
  unfold byte_to_Z. rewrite N2Z.id, Byte.of_to_N. reflexivity.
Qed.

Lemma byte_of_Z_mod (z : Z) : byte_of_Z (z mod 256) = byte_of_Z z.
Proof. unfold byte_of_Z. rewrite Z.mod_mod by lia. reflexivity. Qed.

(** A shifted value and a value below the shift have no bit in common. *)
Lemma lor_shiftl_add (x y k : Z) :
  0 <= k -> 0 <= y < 2 ^ k -> Z.lor (Z.shiftl x k) y = x * 2 ^ k + y.
Proof.
  intros Hk Hy.
  rewrite <- Z.lxor_lor, <- Z.add_nocarry_lxor, Z.shiftl_mul_pow2; trivial.
  all: apply Z.bits_inj'; intros n Hn; rewrite Z.land_spec, Z.bits_0.
  all: destruct (Z.lt_ge_cases n k) as [Hlt | Hge].
  all: try (rewrite Z.shiftl_spec_low by trivial; reflexivity).
  all: replace (Z.testbit y n) with false; [apply andb_false_r |].
  all: symmetry; destruct (Z.eq_dec y 0) as [-> | Hy0]; [apply Z.bits_0 |].
  all: apply Z.bits_above_log2; [lia |].
  all: apply Z.lt_le_trans with k; [apply Z.log2_lt_pow2; lia | lia].
Qed.

(** ** base64: decoding undoes encoding *)

Lemma decodeMap_encode (s : Z) :
  0 <= s < 64 -> base64.decodeMap (base64.encode s) = Some s.
Proof.
  intros Hs. rewrite <- (Z2Nat.id s) at 2 by lia.
  assert (Hn : (Z.to_nat s < 64)%nat) by lia.
  unfold base64.encode. revert Hn. generalize (Z.to_nat s) as n. intros n Hn.
  do 64 (destruct n as [| n]; [reflexivity |]). lia.
Qed.

Lemma encode_not_newline (s : Z) : base64.is_newline (base64.encode s) = false.
Proof.
  unfold base64.encode. generalize (Z.to_nat s) as n. intros n.
  do 64 (destruct n as [| n]; [reflexivity |]). reflexivity.
Qed.

Lemma encode_not_pad (s : Z) : Ascii.eqb (base64.encode s) base64.padChar = false.
Proof.
  unfold base64.encode. generalize (Z.to_nat s) as n. intros n.
  do 64 (destruct n as [| n]; [reflexivity |]). reflexivity.
Qed.

(** Three bytes at a time. *)
Lemma list_ind3 {A} (P : list A -> Prop) :
  P [] -> (forall a, P [a]) -> (forall a b, P [a; b]) ->
  (forall a b c l, P l -> P (a :: b :: c :: l)) ->
  forall l, P l.
Proof.
  intros H0 H1 H2 H3.
  fix IH 1. intros [| a [| b [| c l]]].
  - exact H0.
  - apply H1.
  - apply H2.
  - apply H3, IH.
Qed.

Lemma strip_newlines_EncodeToString (src : list byte) :
  base64.strip_newlines (base64.EncodeToString src) = base64.EncodeToString src.
Proof.
  induction src as [| a | a b | a b c l IH] using list_ind3;
    cbn [base64.EncodeToString base64.strip_newlines];
    rewrite ?encode_not_newline; cbn [base64.strip_newlines];
    rewrite ?IH; reflexivity.
Qed.

(** The quantum of four sextets and the value of three bytes, as sums. *)
Lemma quantum_add (d0 d1 d2 d3 : Z) :
  0 <= d1 < 64 -> 0 <= d2 < 64 -> 0 <= d3 < 64 ->
  base64.quantum d0 d1 d2 d3 = d0 * 2 ^ 18 + d1 * 2 ^ 12 + d2 * 2 ^ 6 + d3.
Proof.
  intros H1 H2 H3. unfold base64.quantum.
  change 18 with (6 + 12).
  rewrite <- (Z.shiftl_shiftl d0 6 12), <- Z.shiftl_lor by lia.
  rewrite (lor_shiftl_add d0 d1 6) by lia.
  change 12 with (6 + 6).
  rewrite <- (Z.shiftl_shiftl _ 6 6), <- Z.shiftl_lor by lia.
  rewrite !lor_shiftl_add by lia. lia.
Qed.

Lemma bytes3_add (b0 b1 b2 : Z) :
  0 <= b1 < 256 -> 0 <= b2 < 256 ->
  Z.lor (Z.lor (Z.shiftl b0 16) (Z.shiftl b1 8)) b2 = b0 * 2 ^ 16 + b1 * 2 ^ 8 + b2.
Proof.
  intros H1 H2. change 16 with (8 + 8).
  rewrite <- (Z.shiftl_shiftl b0 8 8), <- Z.shiftl_lor by lia.
  rewrite !lor_shiftl_add by lia. lia.
Qed.

Lemma sextet_range (val k : Z) : 0 <= k -> 0 <= Z.land (Z.shiftr val k) 63 < 64.
Proof.
  intros Hk. change 63 with (Z.ones 6). rewrite Z.land_ones by lia.
  apply Z.mod_pos_bound. lia.
Qed.

Lemma sextet_div (val k : Z) :
  0 <= k -> Z.land (Z.shiftr val k) 63 = val / 2 ^ k mod 64.
Proof.
  intros Hk. change 63 with (Z.ones 6).
  rewrite Z.land_ones, Z.shiftr_div_pow2 by lia. reflexivity.
Qed.

(** One full quantum: the three bytes come back. *)
Lemma quantum_bytes3 (b0 b1 b2 : byte) :
  let val := Z.lor (Z.lor (Z.shiftl (byte_to_Z b0) 16) (Z.shiftl (byte_to_Z b1) 8))
               (byte_to_Z b2) in
  let q := base64.quantum (Z.land (Z.shiftr val 18) 63) (Z.land (Z.shiftr val 12) 63)
             (Z.land (Z.shiftr val 6) 63) (Z.land val 63) in
  byte_of_Z (Z.shiftr q 16) = b0 /\ byte_of_Z (Z.shiftr q 8) = b1 /\ byte_of_Z q = b2.
Proof.
  intros val q.
  pose proof (byte_to_Z_range b0) as R0. pose proof (byte_to_Z_range b1) as R1.
  pose proof (byte_to_Z_range b2) as R2.
  assert (Hval : val = byte_to_Z b0 * 2 ^ 16 + byte_to_Z b1 * 2 ^ 8 + byte_to_Z b2)
    by (apply bytes3_add; lia).
  assert (Hq : q = val).
  { subst q. rewrite <- (Z.shiftr_0_r val) at 4.
    rewrite quantum_add by (apply sextet_range; lia).
    rewrite !sextet_div by lia. rewrite Hval.
    change (2 ^ 18) with 262144. change (2 ^ 16) with 65536.
    change (2 ^ 12) with 4096. change (2 ^ 8) with 256.
    change (2 ^ 6) with 64. change (2 ^ 0) with 1.
    generalize dependent (byte_to_Z b0). generalize dependent (byte_to_Z b1).
    generalize dependent (byte_to_Z b2). clear. intros.
    Z.div_mod_to_equations. lia. }
  rewrite Hq, !Z.shiftr_div_pow2 by lia.
  change (2 ^ 16) with 65536. change (2 ^ 8) with 256.
  repeat split; (etransitivity; [| apply byte_of_to_Z]);
    rewrite <- byte_of_Z_mod; f_equal; rewrite Hval;
    change (2 ^ 16) with 65536; change (2 ^ 8) with 256;
    Z.div_mod_to_equations; lia.
Qed.

(** A last quantum of two bytes, and of one. *)
Lemma quantum_bytes2 (b0 b1 : byte) :
  let val := Z.lor (Z.shiftl (byte_to_Z b0) 16) (Z.shiftl (byte_to_Z b1) 8) in
  let q := base64.quantum (Z.land (Z.shiftr val 18) 63) (Z.land (Z.shiftr val 12) 63)
             (Z.land (Z.shiftr val 6) 63) 0 in
  byte_of_Z (Z.shiftr q 16) = b0 /\ byte_of_Z (Z.shiftr q 8) = b1.
Proof.
  intros val q.
  pose proof (byte_to_Z_range b0) as R0. pose proof (byte_to_Z_range b1) as R1.
  assert (Hval : val = byte_to_Z b0 * 2 ^ 16 + byte_to_Z b1 * 2 ^ 8 + 0).
  { rewrite <- bytes3_add by lia. symmetry. apply Z.lor_0_r. }
  assert (Hq : q = val).
  { subst q. rewrite quantum_add by (try apply sextet_range; lia).
    rewrite !sextet_div by lia. rewrite Hval.
    change (2 ^ 18) with 262144. change (2 ^ 16) with 65536.
    change (2 ^ 12) with 4096. change (2 ^ 8) with 256. change (2 ^ 6) with 64.
    generalize dependent (byte_to_Z b0). generalize dependent (byte_to_Z b1).
    clear. intros. Z.div_mod_to_equations. lia. }
  rewrite Hq, !Z.shiftr_div_pow2 by lia.
  change (2 ^ 16) with 65536. change (2 ^ 8) with 256.
  repeat split; (etransitivity; [| apply byte_of_to_Z]);
    rewrite <- byte_of_Z_mod; f_equal; rewrite Hval;
    change (2 ^ 16) with 65536; change (2 ^ 8) with 256;
    Z.div_mod_to_equations; lia.
Qed.

Lemma quantum_bytes1 (b0 : byte) :
  let val := Z.shiftl (byte_to_Z b0) 16 in
  let q := base64.quantum (Z.land (Z.shiftr val 18) 63) (Z.land (Z.shiftr val 12) 63)
             0 0 in
  byte_of_Z (Z.shiftr q 16) = b0.
Proof.
  intros val q. pose proof (byte_to_Z_range b0) as R0.
  assert (Hval : val = byte_to_Z b0 * 2 ^ 16)
    by (subst val; apply Z.shiftl_mul_pow2; lia).
  assert (Hq : q = val).
  { subst q. rewrite quantum_add by (try apply sextet_range; lia).
    rewrite !sextet_div by lia. rewrite Hval.
    change (2 ^ 18) with 262144. change (2 ^ 16) with 65536.
    change (2 ^ 12) with 4096. change (2 ^ 6) with 64.
    generalize dependent (byte_to_Z b0). clear. intros.
    Z.div_mod_to_equations. lia. }
  rewrite Hq, Z.shiftr_div_pow2 by lia.
  etransitivity; [| apply byte_of_to_Z].
  rewrite <- byte_of_Z_mod; f_equal; rewrite Hval.
  change (2 ^ 16) with 65536. Z.div_mod_to_equations; lia.
Qed.

Lemma sextet_range0 (val : Z) : 0 <= Z.land val 63 < 64.
Proof. rewrite <- (Z.shiftr_0_r val). apply sextet_range. lia. Qed.

Lemma decodeMap_pad : base64.decodeMap base64.padChar = None.
Proof. reflexivity. Qed.

Lemma decodeQuanta_EncodeToString (src : list byte) :
  base64.decodeQuanta (base64.EncodeToString src) = Some src.
Proof.
  induction src as [| a | a b | a b c l IH] using list_ind3.
  - reflexivity.
  - cbn [base64.EncodeToString base64.decodeQuanta].
    rewrite !decodeMap_encode by (apply sextet_range; lia).
    rewrite decodeMap_pad. rewrite Ascii.eqb_refl. cbn [andb].
    f_equal. f_equal. apply quantum_bytes1.
  - cbn [base64.EncodeToString base64.decodeQuanta].
    rewrite !decodeMap_encode by (apply sextet_range; lia).
    rewrite decodeMap_pad. rewrite Ascii.eqb_refl.
    destruct (quantum_bytes2 a b) as [E0 E1]. cbv zeta in E0, E1.
    rewrite E0, E1. reflexivity.
  - cbn [base64.EncodeToString base64.decodeQuanta].
    rewrite !decodeMap_encode
      by first [apply sextet_range; lia | apply sextet_range0].
    rewrite IH.
    destruct (quantum_bytes3 a b c) as (E0 & E1 & E2). cbv zeta in E0, E1, E2.
    rewrite E0, E1, E2. reflexivity.
Qed.

Theorem DecodeString_EncodeToString (src : list byte) :
  base64.DecodeString (base64.EncodeToString src) = Some src.
Proof.
  unfold base64.DecodeString.
  rewrite strip_newlines_EncodeToString. apply decodeQuanta_EncodeToString.
Qed.

(** ** Headers *)

Lemma Header_Get_Set_eq (h : http.Header) (key value : string) :
  http.Header_Get (http.Header_Set h key value) key = value.
Proof. unfold http.Header_Get, http.Header_Set. rewrite lookup_insert_eq. reflexivity. Qed.

Lemma Header_Get_Set_ne (h : http.Header) (key key' value : string) :
  http.CanonicalMIMEHeaderKey key <> http.CanonicalMIMEHeaderKey key' ->
  http.Header_Get (http.Header_Set h key value) key' = http.Header_Get h key'.
Proof.
  intros Hne. unfold http.Header_Get, http.Header_Set.
  rewrite lookup_insert_ne by exact Hne. reflexivity.
Qed.

Lemma lookup_Header_Set_ne (h : http.Header) (key value k : string) :
  k <> http.CanonicalMIMEHeaderKey key -> http.Header_Set h key value !! k = h !! k.
Proof. intros Hne. unfold http.Header_Set. apply lookup_insert_ne. congruence. Qed.

(** ** Lists of a known length *)

Ltac explode l H :=
  repeat (destruct l as [| ? l]; [discriminate H |]);
  destruct l; [| discriminate H].

Lemma hex_EncodeToString_length (src : list byte) :
  String.length (hex.EncodeToString src) = (2 * length src)%nat.
Proof. induction src as [| v src IH]; cbn [hex.EncodeToString String.length length]; lia. Qed.

Lemma slice_length (s : list byte) (lo hi : nat) :
  (hi <= length s)%nat -> length (slice s lo hi) = (hi - lo)%nat.
Proof. intros H. unfold slice. rewrite length_firstn, length_skipn. lia. Qed.

(** ** The sampler *)

Lemma sample_by_path (salt : Z) (rate : example.float64) (traceID : Z) :
  example.sample salt rate traceID =
  match example.sample_path rate with
  | example.ReturnFalse => false
  | example.ReturnTrue => true
  | example.ReturnProbabilistic =>
      let v := Z.lxor traceID salt in
      let v := if v <? 0 then example.wrap64 (- v) else v in
      SFltb (example.float64_of_Z (v mod 10000))
        (SFmul example.prec example.emax rate example.f10000)
  end.
Proof.
  unfold example.sample, example.sample_path.
  destruct (SFleb example.f0_0 rate); [reflexivity |].
  destruct (SFleb rate example.f1_0); reflexivity.
Qed.

Lemma sample_path_cases (rate : example.float64) :
  example.sample_path rate =
  match rate with
  | S754_nan => example.ReturnProbabilistic
  | _ => if SFltb rate example.f0_0 then example.ReturnTrue else example.ReturnFalse
  end.
Proof. destruct rate as [[] | [] | | [] m e]; reflexivity. Qed.

Lemma sample_spec (salt : Z) (rate : example.float64) (traceID : Z) :
  example.sample salt rate traceID = SFltb rate example.f0_0.
Proof.
  rewrite sample_by_path, sample_path_cases.
  destruct rate as [[] | [] | | [] m e]; try reflexivity.
  cbv zeta. cbn [SFmul]. destruct (example.float64_of_Z _); reflexivity.
Qed.

(** ** What the two decoders do with a well-formed header *)

Lemma hex_EncodeToString_nonempty (s : list byte) (lo hi : nat) :
  (lo < hi)%nat -> (hi <= length s)%nat ->
  String.eqb (hex.EncodeToString (slice s lo hi)) EmptyString = false.
Proof.
  intros Hlo Hhi. pose proof (slice_length s lo hi Hhi) as Hlen.
  destruct (slice s lo hi) as [| v l]; [cbn in Hlen; lia | reflexivity].
Qed.

Lemma FromL5D_ok (headers : http.Header) (b : list byte) :
  base64.DecodeString (http.Header_Get headers linkin.l5dHeaderTrace) = Some b ->
  length b = 32%nat \/ length b = 40%nat ->
  linkin.FromL5D headers =
  http.Header_Set
    (http.Header_Set
       (http.Header_Set headers linkin.zipkinHeaderTraceID
          (if (length b =? 40)%nat
           then (linkin.Sprintf_016x (slice b 32 (length b))
                 ++ linkin.Sprintf_016x (slice b 16 24))%string
           else linkin.Sprintf_016x (slice b 16 24)))
       linkin.zipkinHeaderSpanID (hex.EncodeToString (slice b 0 8)))
    linkin.zipkinHeaderParentSpanID (hex.EncodeToString (slice b 8 16)).
Proof.
  intros Hb Hlen. unfold linkin.FromL5D. rewrite Hb.
  rewrite hex_EncodeToString_nonempty by lia.
  destruct Hlen as [-> | ->]; reflexivity.
Qed.

Lemma FromL5D_malformed (headers : http.Header) :
  match base64.DecodeString (http.Header_Get headers linkin.l5dHeaderTrace) with
  | None => True
  | Some b => length b <> 32%nat /\ length b <> 40%nat
  end ->
  linkin.FromL5D headers = headers.
Proof.
  unfold linkin.FromL5D.
  destruct (base64.DecodeString _) as [b |]; [| reflexivity].
  intros [H32 H40].
  apply Nat.eqb_neq in H32, H40. rewrite H32, H40. reflexivity.
Qed.

Lemma SpanContextFromRequest_ok (salt : Z) (pf : string -> option example.float64)
    (r : http.Request) (b : list byte) :
  base64.DecodeString (http.Header_Get (http.Header_ r) example.l5dHeaderTrace) = Some b ->
  length b = 32%nat \/ length b = 40%nat ->
  example.SpanContextFromRequest salt pf r =
  (let traceID :=
     copy (if (length b =? 40)%nat
           then copy (make 16) 0 8 (slice b 32 (length b)) else make 16)
       8 16 (slice b 16 24) in
   {| example.TraceID := traceID;
      example.SpanID := copy (make 8) 0 8 (slice b 0 8);
      example.TraceOptions :=
        match pf (http.Header_Get (http.Header_ r) example.l5dHeaderSample) with
        | Some rate =>
            if example.sample salt rate (binary.BigEndian_Uint64 traceID) then 1 else 0
        | None => 0
        end |}, true).
Proof.
  intros Hb Hlen. unfold example.SpanContextFromRequest. rewrite Hb.
  destruct Hlen as [Hlen | Hlen]; rewrite !Hlen;
    cbn [Nat.eqb negb andb example.TraceID example.SpanID example.TraceOptions
         example.zeroSpanContext];
    destruct (pf _) as [rate |]; [destruct (example.sample _ _ _) | | destruct (example.sample _ _ _) |];
    reflexivity.
Qed.

Lemma SpanContextFromRequest_malformed (salt : Z) (pf : string -> option example.float64)
    (r : http.Request) :
  match base64.DecodeString (http.Header_Get (http.Header_ r) example.l5dHeaderTrace) with
  | None => True
  | Some b => length b <> 32%nat /\ length b <> 40%nat
  end ->
  example.SpanContextFromRequest salt pf r = (example.zeroSpanContext, false).
Proof.
  unfold example.SpanContextFromRequest.
  destruct (base64.DecodeString _) as [b |]; [| reflexivity].
  intros [H32 H40].
  apply Nat.eqb_neq in H32, H40. rewrite H32, H40. reflexivity.
Qed.

(** ** Export of B3 headers: [ToL5D] *)

(** C1. With a trace id of 16 bytes, a span id of 8 bytes and a parent id
    that decodes, [ToL5D] does not complete: the last loop ranges over all
    16 bytes of the trace id and stores them from offset 32 on, so that the
    ninth store, at index 40 of the 40-byte array, panics. No header is
    written. *)
Theorem ToL5D_trace128_panics (headers : http.Header)
    (traceID spanID parentID : list byte) :
  hex.DecodeString (http.Header_Get headers linkin.zipkinHeaderTraceID) = Some traceID ->
  hex.DecodeString (http.Header_Get headers linkin.zipkinHeaderSpanID) = Some spanID ->
  hex.DecodeString (http.Header_Get headers linkin.zipkinHeaderParentSpanID) = Some parentID ->
  length traceID = 16%nat -> length spanID = 8%nat ->
  linkin.ToL5D headers = (Panicked, headers).
Proof.
  intros Ht Hs Hp Hlt Hls. unfold linkin.ToL5D. rewrite Ht, Hs, Hp, Hlt, Hls.
  cbn [Nat.eqb orb negb].
  explode traceID Hlt. explode spanID Hls.
  destruct (length parentID =? 8)%nat eqn:Hlp.
  - apply Nat.eqb_eq in Hlp. explode parentID Hlp. reflexivity.
  - reflexivity.
Qed.

Lemma ToL5D_trace128_panics_witness :
  linkin.ToL5D samples.b3_trace128 = (Panicked, samples.b3_trace128).
Proof.
  apply (ToL5D_trace128_panics samples.b3_trace128
           [x00; x01; x02; x03; x04; x05; x06; x07; x08; x09; x0a; x0b; x0c; x0d; x0e; x0f]
           [x01; x02; x03; x04; x05; x06; x07; x08] []); reflexivity.
Defined.

(** With a trace id of 8 bytes the export completes and writes the 32-byte
    form. *)
Example ToL5D_trace64_returns :
  linkin.ToL5D samples.b3_trace64 =
  (Returned,
   http.Header_Set samples.b3_trace64 linkin.l5dHeaderTrace
     (base64.EncodeToString samples.wire32)).
Proof. reflexivity. Qed.

(** ** The sampler: [sample] *)

(** C2. For a rate below zero [sample] returns true, whatever the trace id
    and the salt: the first test, [rate >= 0.0], fails and the second,
    [rate <= 1.0], holds. *)
Theorem sample_negative_rate_true (salt : Z) (rate : example.float64) (traceID : Z) :
  SFltb rate example.f0_0 = true -> example.sample salt rate traceID = true.
Proof. intros H. rewrite sample_spec. exact H. Qed.

Lemma sample_negative_rate_true_witness :
  example.sample samples.sampleSalt samples.minus_one 0 = true.
Proof. apply sample_negative_rate_true. reflexivity. Defined.

(** The rate written to force sampling downstream, [1.0], is never sampled. *)
Example sample_force_rate_false (salt traceID : Z) :
  example.sample salt example.f1_0 traceID = false.
Proof. apply sample_spec. Qed.

(** C10, counterexample. The claim as stated, that [sample] returns true
    exactly when the rate is below zero and that no rate reaches the
    probabilistic return, fails at a NaN rate: NaN fails both
    [rate >= 0.0] and [rate <= 1.0] and runs into the probabilistic
    return. *)
Lemma sample_nan_reaches_probabilistic :
  ~ (forall (salt : Z) (rate : example.float64) (traceID : Z),
        example.sample salt rate traceID = SFltb rate example.f0_0 /\
        example.sample_path rate <> example.ReturnProbabilistic).
Proof.
  intros H. destruct (H 0 S754_nan 0) as [_ Hpath]. apply Hpath. reflexivity.
Qed.

(** C10, amended. [sample] returns true exactly when the rate is below
    zero; its result depends neither on the trace id nor on the salt; the
    probabilistic return is reached by a NaN rate and by no other, and gives
    false there. *)
Theorem sample_decision (salt : Z) (rate : example.float64) (traceID : Z) :
  example.sample salt rate traceID = SFltb rate example.f0_0 /\
  (forall salt' traceID',
      example.sample salt' rate traceID' = example.sample salt rate traceID) /\
  (example.sample_path rate = example.ReturnProbabilistic <-> rate = S754_nan) /\
  (rate = S754_nan -> example.sample salt rate traceID = false).
Proof.
  split; [apply sample_spec |]. split; [| split].
  - intros salt' traceID'. rewrite !sample_spec. reflexivity.
  - rewrite sample_path_cases.
    destruct rate as [[] | [] | | [] m e]; cbn; split; congruence.
  - intros ->. apply sample_spec.
Qed.

Lemma sample_decision_witness :
  example.sample samples.sampleSalt S754_nan 7 = false.
Proof.
  apply (sample_decision samples.sampleSalt S754_nan 7). reflexivity.
Defined.

(** ** Extraction of a span context: [SpanContextFromRequest] *)









(** On the 32-byte header [samples.wire32] the sampler is asked about the
    id 0, where wire bytes [16:24] hold [0x42]. *)
Example SpanContextFromRequest_wire32_sampler_argument :
  binary.BigEndian_Uint64
    (example.TraceID
       (fst (example.SpanContextFromRequest samples.sampleSalt samples.ParseFloat
               {| http.Header_ := samples.l5d_wire32 |}))) = 0 /\
  big_endian_value (slice samples.wire32 16 24) = 0x42.
Proof. split; vm_compute; reflexivity. Qed.

(** The integer the code hands to [sample] is read from the first eight
    bytes of the trace id: wire bytes [32:40] of a 40-byte header, zeros for
    a 32-byte one. *)
Lemma SpanContextFromRequest_sample_argument (salt : Z)
    (pf : string -> option example.float64) (r : http.Request) (b : list byte) :
  base64.DecodeString (http.Header_Get (http.Header_ r) example.l5dHeaderTrace) = Some b ->
  length b = 32%nat \/ length b = 40%nat ->
  binary.BigEndian_Uint64 (example.TraceID (fst (example.SpanContextFromRequest salt pf r)))
  = binary.BigEndian_Uint64
      (if (length b =? 40)%nat then slice b 32 40 else make 8).
Proof.
  intros Hb Hlen. rewrite (SpanContextFromRequest_ok salt pf r b Hb Hlen).
  cbv zeta. cbn [fst example.TraceID].
  destruct Hlen as [Hlen | Hlen]; rewrite Hlen; explode b Hlen; reflexivity.
Qed.

(** C8. A trace header of exactly 32 bytes is accepted, and the trace id of
    the context has eight zero bytes followed by wire bytes [16:24]. *)
Theorem SpanContextFromRequest_wire32 (salt : Z) (pf : string -> option example.float64)
    (r : http.Request) (b : list byte) :
  base64.DecodeString (http.Header_Get (http.Header_ r) example.l5dHeaderTrace) = Some b ->
  length b = 32%nat ->
  let res := example.SpanContextFromRequest salt pf r in
  snd res = true /\
  length (example.TraceID (fst res)) = 16%nat /\
  slice (example.TraceID (fst res)) 0 8 = make 8 /\
  slice (example.TraceID (fst res)) 8 16 = slice b 16 24.
Proof.
  intros Hb Hlen.
  rewrite (SpanContextFromRequest_ok salt pf r b Hb (or_introl Hlen)).
  rewrite Hlen. cbv zeta. cbn [fst snd example.TraceID Nat.eqb].
  explode b Hlen. repeat split.
Qed.

Lemma SpanContextFromRequest_wire32_witness :
  let res := example.SpanContextFromRequest samples.sampleSalt samples.ParseFloat
               {| http.Header_ := samples.l5d_wire32 |} in
  snd res = true /\
  length (example.TraceID (fst res)) = 16%nat /\
  slice (example.TraceID (fst res)) 0 8 = make 8 /\
  slice (example.TraceID (fst res)) 8 16 = slice samples.wire32 16 24.
Proof.
  apply (SpanContextFromRequest_wire32 samples.sampleSalt samples.ParseFloat
           {| http.Header_ := samples.l5d_wire32 |} samples.wire32).
  - vm_compute. reflexivity.
  - reflexivity.
Defined.

(** ** Injection of a span context: [SpanContextToRequest] *)

Lemma canonical_keys_example :
  http.CanonicalMIMEHeaderKey example.l5dHeaderSample
  <> http.CanonicalMIMEHeaderKey example.l5dHeaderTrace.
Proof. discriminate. Qed.

(** C6. A sampled context sets [l5d-sample] to ["1.0"]; a context that is
    not sampled leaves whatever the request holds under that key. *)
Theorem SpanContextToRequest_sample_header (sc : example.SpanContext) (r : http.Request) :
  (example.IsSampled sc = true ->
   http.Header_ (example.SpanContextToRequest sc r)
     !! http.CanonicalMIMEHeaderKey example.l5dHeaderSample = Some ["1.0"%string] /\
   http.Header_Get (http.Header_ (example.SpanContextToRequest sc r))
     example.l5dHeaderSample = "1.0"%string) /\
  (example.IsSampled sc = false ->
   http.Header_ (example.SpanContextToRequest sc r)
     !! http.CanonicalMIMEHeaderKey example.l5dHeaderSample
   = http.Header_ r !! http.CanonicalMIMEHeaderKey example.l5dHeaderSample).
Proof.
  unfold example.SpanContextToRequest. split; intros ->; cbn [http.Header_].
  - rewrite Header_Get_Set_eq. unfold http.Header_Set at 1.
    rewrite lookup_insert_eq. split; reflexivity.
  - apply lookup_Header_Set_ne, canonical_keys_example.
Qed.

Lemma SpanContextToRequest_sample_header_witness :
  http.Header_Get
    (http.Header_ (example.SpanContextToRequest samples.span_context
                     {| http.Header_ := ∅ |}))
    example.l5dHeaderSample = "1.0"%string
  /\ http.Header_
       (example.SpanContextToRequest
          {| example.TraceID := make 16; example.SpanID := make 8;
             example.TraceOptions := 2 |}
          {| http.Header_ := samples.l5d_wire40 |})
       !! http.CanonicalMIMEHeaderKey example.l5dHeaderSample
     = samples.l5d_wire40 !! http.CanonicalMIMEHeaderKey example.l5dHeaderSample.
Proof.
  split.
  - apply (SpanContextToRequest_sample_header samples.span_context). reflexivity.
  - apply (SpanContextToRequest_sample_header
             {| example.TraceID := make 16; example.SpanID := make 8;
                example.TraceOptions := 2 |}). reflexivity.
Defined.

(** The header written by [SpanContextToRequest] and the layout of its
    forty bytes. *)
Lemma SpanContextToRequest_trace_header (sc : example.SpanContext) (r : http.Request) :
  http.Header_Get (http.Header_ (example.SpanContextToRequest sc r)) example.l5dHeaderTrace
  = base64.EncodeToString
      (copy (copy (copy (copy (make 40) 0 8 (example.SpanID sc))
                     16 24 (slice (example.TraceID sc) 8 16))
               24 32 example.l5dTraceFlags)
         32 40 (slice (example.TraceID sc) 0 8)).
Proof.
  unfold example.SpanContextToRequest.
  destruct (example.IsSampled sc); cbn [http.Header_].
  - rewrite Header_Get_Set_ne by apply canonical_keys_example.
    apply Header_Get_Set_eq.
  - apply Header_Get_Set_eq.
Qed.

(** C4. Injecting a span context with a 16-byte trace id and an 8-byte
    span id into a request and extracting it again succeeds and gives back
    the same span id and trace id. *)
Theorem SpanContext_round_trip (salt : Z) (pf : string -> option example.float64)
    (sc : example.SpanContext) (r : http.Request) :
  length (example.TraceID sc) = 16%nat ->
  length (example.SpanID sc) = 8%nat ->
  let res := example.SpanContextFromRequest salt pf (example.SpanContextToRequest sc r) in
  snd res = true /\
  example.SpanID (fst res) = example.SpanID sc /\
  example.TraceID (fst res) = example.TraceID sc.
Proof.
  intros Ht Hs. cbv zeta.
  erewrite SpanContextFromRequest_ok;
    [| rewrite SpanContextToRequest_trace_header; apply DecodeString_EncodeToString |].
  - destruct sc as [tid sid opts]. cbn [example.TraceID example.SpanID] in *.
    explode tid Ht. explode sid Hs. repeat split.
  - destruct sc as [tid sid opts]. cbn [example.TraceID example.SpanID] in *.
    explode tid Ht. explode sid Hs. right. reflexivity.
Qed.

Lemma SpanContext_round_trip_witness :
  let res := example.SpanContextFromRequest samples.sampleSalt samples.ParseFloat
               (example.SpanContextToRequest samples.span_context
                  {| http.Header_ := ∅ |}) in
  snd res = true /\
  example.SpanID (fst res) = example.SpanID samples.span_context /\
  example.TraceID (fst res) = example.TraceID samples.span_context.
Proof.
  apply (SpanContext_round_trip samples.sampleSalt samples.ParseFloat
           samples.span_context {| http.Header_ := ∅ |}); reflexivity.
Defined.

(** ** Malformed input *)

(** [ToL5D] ends in one of three ways: it returns without a write, it
    panics without a write, or it returns after writing the one header
    [l5d-ctx-trace]. *)
Lemma ToL5D_cases (headers : http.Header) :
  linkin.ToL5D headers = (Returned, headers) \/
  linkin.ToL5D headers = (Panicked, headers) \/
  exists value,
    linkin.ToL5D headers
    = (Returned, http.Header_Set headers linkin.l5dHeaderTrace value).
Proof.
  unfold linkin.ToL5D.
  destruct (hex.DecodeString _) as [traceID |]; [| now left].
  destruct (hex.DecodeString _) as [spanID |]; [| now left].
  destruct (hex.DecodeString _) as [parentID |]; [| now left].
  destruct (negb _ || negb _); [now left |].
  cbv zeta. destruct (_ ≫= _) as [l5dctx |]; [| now (right; left)].
  right; right. eexists. reflexivity.
Qed.

(** C5. A trace header that is not base64, or that decodes to a length
    other than 32 and 40, makes [SpanContextFromRequest] return the zero
    context with [ok = false] and [FromL5D] leave the headers as they are;
    B3 headers of which the trace id, the span id or the parent id is not
    hexadecimal, or the trace id is not 8 or 16 bytes long, or the span id
    not 8 bytes long, make [ToL5D] return with the headers as they are. *)
Theorem malformed_input_rejected (salt : Z) (pf : string -> option example.float64)
    (headers : http.Header) :
  (base64.DecodeString (http.Header_Get headers linkin.l5dHeaderTrace) = None \/
   (exists b,
       base64.DecodeString (http.Header_Get headers linkin.l5dHeaderTrace) = Some b /\
       length b <> 32%nat /\ length b <> 40%nat) ->
   example.SpanContextFromRequest salt pf {| http.Header_ := headers |}
   = (example.zeroSpanContext, false) /\
   linkin.FromL5D headers = headers) /\
  (hex.DecodeString (http.Header_Get headers linkin.zipkinHeaderTraceID) = None \/
   hex.DecodeString (http.Header_Get headers linkin.zipkinHeaderSpanID) = None \/
   hex.DecodeString (http.Header_Get headers linkin.zipkinHeaderParentSpanID) = None \/
   (exists traceID,
       hex.DecodeString (http.Header_Get headers linkin.zipkinHeaderTraceID) = Some traceID /\
       length traceID <> 8%nat /\ length traceID <> 16%nat) \/
   (exists spanID,
       hex.DecodeString (http.Header_Get headers linkin.zipkinHeaderSpanID) = Some spanID /\
       length spanID <> 8%nat) ->
   linkin.ToL5D headers = (Returned, headers)).
Proof.
  split.
  - intros Hbad. split.
    + apply SpanContextFromRequest_malformed. cbn [http.Header_].
      change example.l5dHeaderTrace with linkin.l5dHeaderTrace.
      destruct Hbad as [-> | (b & -> & Hlen)]; [exact I | exact Hlen].
    + apply FromL5D_malformed.
      destruct Hbad as [-> | (b & -> & Hlen)]; [exact I | exact Hlen].
  - intros Hbad. unfold linkin.ToL5D.
    destruct (hex.DecodeString (http.Header_Get headers linkin.zipkinHeaderTraceID))
      as [traceID |] eqn:Ht; [| reflexivity].
    destruct (hex.DecodeString (http.Header_Get headers linkin.zipkinHeaderSpanID))
      as [spanID |] eqn:Hs; [| reflexivity].
    destruct (hex.DecodeString (http.Header_Get headers linkin.zipkinHeaderParentSpanID))
      as [parentID |] eqn:Hp; [| reflexivity].
    destruct Hbad as [H | [H | [H | [(t & H & H8 & H16) | (s & H & H8)]]]];
      try discriminate H; injection H as <-.
    + apply Nat.eqb_neq in H8, H16. rewrite H8, H16. reflexivity.
    + apply Nat.eqb_neq in H8. rewrite H8. rewrite orb_true_r. reflexivity.
Qed.

Lemma malformed_input_rejected_witness :
  (example.SpanContextFromRequest samples.sampleSalt samples.ParseFloat
     {| http.Header_ := samples.l5d_short |}
   = (example.zeroSpanContext, false) /\
   linkin.FromL5D samples.l5d_short = samples.l5d_short) /\
  linkin.ToL5D samples.b3_span_short = (Returned, samples.b3_span_short).
Proof.
  split.
  - apply (malformed_input_rejected samples.sampleSalt samples.ParseFloat samples.l5d_short).
    right. exists (removelast samples.wire32).
    split; [vm_compute; reflexivity | split; discriminate].
  - apply (malformed_input_rejected samples.sampleSalt samples.ParseFloat
             samples.b3_span_short).
    right; right; right; right. exists [x01; x02; x03; x04].
    split; [reflexivity | discriminate].
Defined.

(** ** Import of the trace header: [FromL5D] *)

Lemma canonical_keys_zipkin :
  http.CanonicalMIMEHeaderKey linkin.zipkinHeaderSampled
  <> http.CanonicalMIMEHeaderKey linkin.zipkinHeaderTraceID /\
  http.CanonicalMIMEHeaderKey linkin.zipkinHeaderSampled
  <> http.CanonicalMIMEHeaderKey linkin.zipkinHeaderSpanID /\
  http.CanonicalMIMEHeaderKey linkin.zipkinHeaderSampled
  <> http.CanonicalMIMEHeaderKey linkin.zipkinHeaderParentSpanID /\
  http.CanonicalMIMEHeaderKey linkin.zipkinHeaderFlags
  <> http.CanonicalMIMEHeaderKey linkin.zipkinHeaderTraceID /\
  http.CanonicalMIMEHeaderKey linkin.zipkinHeaderFlags
  <> http.CanonicalMIMEHeaderKey linkin.zipkinHeaderSpanID /\
  http.CanonicalMIMEHeaderKey linkin.zipkinHeaderFlags
  <> http.CanonicalMIMEHeaderKey linkin.zipkinHeaderParentSpanID /\
  http.CanonicalMIMEHeaderKey example.l5dHeaderSample
  <> http.CanonicalMIMEHeaderKey linkin.l5dHeaderTrace.
Proof. repeat split; discriminate. Qed.

(** C7. When the trace header decodes to 32 or 40 bytes, [FromL5D] sets
    [X-B3-ParentSpanId] to the hexadecimal digits of bytes [8:16]; these are
    sixteen characters, so the test for an empty string never holds the
    write back, not even for a parent id of eight zero bytes. *)
Theorem FromL5D_parent_written (headers : http.Header) (b : list byte) :
  base64.DecodeString (http.Header_Get headers linkin.l5dHeaderTrace) = Some b ->
  length b = 32%nat \/ length b = 40%nat ->
  linkin.FromL5D headers !! http.CanonicalMIMEHeaderKey linkin.zipkinHeaderParentSpanID
  = Some [hex.EncodeToString (slice b 8 16)] /\
  String.length (hex.EncodeToString (slice b 8 16)) = 16%nat /\
  (slice b 8 16 = make 8 ->
   http.Header_Get (linkin.FromL5D headers) linkin.zipkinHeaderParentSpanID
   = "0000000000000000"%string).
Proof.
  intros Hb Hlen. rewrite (FromL5D_ok headers b Hb Hlen).
  split; [| split].
  - unfold http.Header_Set at 1. apply lookup_insert_eq.
  - rewrite hex_EncodeToString_length, slice_length by lia. reflexivity.
  - intros ->. rewrite Header_Get_Set_eq. reflexivity.
Qed.

Lemma FromL5D_parent_written_witness :
  http.Header_Get (linkin.FromL5D samples.l5d_wire32) linkin.zipkinHeaderParentSpanID
  = "0000000000000000"%string.
Proof.
  apply (FromL5D_parent_written samples.l5d_wire32 samples.wire32).
  - vm_compute. reflexivity.
  - left. reflexivity.
  - reflexivity.
Defined.

(** ** Frame *)

Lemma FromL5D_frame (headers : http.Header) (k : string) :
  k <> http.CanonicalMIMEHeaderKey linkin.zipkinHeaderTraceID ->
  k <> http.CanonicalMIMEHeaderKey linkin.zipkinHeaderSpanID ->
  k <> http.CanonicalMIMEHeaderKey linkin.zipkinHeaderParentSpanID ->
  linkin.FromL5D headers !! k = headers !! k.
Proof.
  intros Ht Hs Hp.
  destruct (base64.DecodeString (http.Header_Get headers linkin.l5dHeaderTrace))
    as [b |] eqn:Hb.
  - destruct (Nat.eq_dec (length b) 32%nat) as [H32 | H32];
      [| destruct (Nat.eq_dec (length b) 40%nat) as [H40 | H40]].
    + rewrite (FromL5D_ok headers b Hb (or_introl H32)).
      rewrite !lookup_Header_Set_ne by assumption. reflexivity.
    + rewrite (FromL5D_ok headers b Hb (or_intror H40)).
      rewrite !lookup_Header_Set_ne by assumption. reflexivity.
    + rewrite FromL5D_malformed; [reflexivity |]. rewrite Hb. split; assumption.
  - rewrite FromL5D_malformed; [reflexivity |]. rewrite Hb. exact I.
Qed.

Lemma ToL5D_frame (headers : http.Header) (k : string) :
  k <> http.CanonicalMIMEHeaderKey linkin.l5dHeaderTrace ->
  snd (linkin.ToL5D headers) !! k = headers !! k.
Proof.
  intros Hk.
  destruct (ToL5D_cases headers) as [-> | [-> | [value ->]]]; cbn [snd];
    [reflexivity | reflexivity |].
  apply lookup_Header_Set_ne, Hk.
Qed.

(** C9. [FromL5D] changes no key other than [X-B3-TraceId], [X-B3-SpanId]
    and [X-B3-ParentSpanId], so neither [X-B3-Sampled] nor [X-B3-Flags];
    [ToL5D] changes no key other than [l5d-ctx-trace], so not [l5d-sample],
    whether it returns or panics. *)
Theorem codec_frame (headers : http.Header) :
  (forall k : string,
      k <> http.CanonicalMIMEHeaderKey linkin.zipkinHeaderTraceID ->
      k <> http.CanonicalMIMEHeaderKey linkin.zipkinHeaderSpanID ->
      k <> http.CanonicalMIMEHeaderKey linkin.zipkinHeaderParentSpanID ->
      linkin.FromL5D headers !! k = headers !! k) /\
  linkin.FromL5D headers !! http.CanonicalMIMEHeaderKey linkin.zipkinHeaderSampled
  = headers !! http.CanonicalMIMEHeaderKey linkin.zipkinHeaderSampled /\
  linkin.FromL5D headers !! http.CanonicalMIMEHeaderKey linkin.zipkinHeaderFlags
  = headers !! http.CanonicalMIMEHeaderKey linkin.zipkinHeaderFlags /\
  (forall k : string,
      k <> http.CanonicalMIMEHeaderKey linkin.l5dHeaderTrace ->
      snd (linkin.ToL5D headers) !! k = headers !! k) /\
  snd (linkin.ToL5D headers) !! http.CanonicalMIMEHeaderKey example.l5dHeaderSample
  = headers !! http.CanonicalMIMEHeaderKey example.l5dHeaderSample.
Proof.
  pose proof canonical_keys_zipkin as (K1 & K2 & K3 & K4 & K5 & K6 & K7).
  repeat split.
  - apply FromL5D_frame.
  - apply FromL5D_frame; assumption.
  - apply FromL5D_frame; assumption.
  - apply ToL5D_frame.
  - apply ToL5D_frame; assumption.
Qed.

Lemma codec_frame_witness :
  linkin.FromL5D samples.l5d_wire40 !! "L5d-Sample"%string
  = samples.l5d_wire40 !! "L5d-Sample"%string /\
  snd (linkin.ToL5D samples.b3_trace64) !! "X-B3-Spanid"%string
  = samples.b3_trace64 !! "X-B3-Spanid"%string.
Proof.
  split.
  - apply (codec_frame samples.l5d_wire40); discriminate.
  - apply (codec_frame samples.b3_trace64); discriminate.
Defined.

(** ** The scenarios of the specification *)

(** A 32-byte header with span id [0102030405060708] and trace id [0x42],
    no sample header: the context has the span id, the trace id padded with
    zeros, and is not sampled. *)
Example SpanContextFromRequest_scenario :
  example.SpanContextFromRequest samples.sampleSalt samples.ParseFloat
    {| http.Header_ := samples.l5d_wire32 |}
  = ({| example.TraceID := make 8 ++ [x00; x00; x00; x00; x00; x00; x00; x42];
        example.SpanID := [x01; x02; x03; x04; x05; x06; x07; x08];
        example.TraceOptions := 0 |}, true).
Proof. vm_compute. reflexivity. Qed.

(** The same header imported as B3 headers. *)
Example FromL5D_scenario :
  linkin.FromL5D samples.l5d_wire32
  = http.Header_Set
      (http.Header_Set
         (http.Header_Set samples.l5d_wire32 linkin.zipkinHeaderTraceID "0000000000000042")
         linkin.zipkinHeaderSpanID "0102030405060708")
      linkin.zipkinHeaderParentSpanID "0000000000000000".
Proof. vm_compute. reflexivity. Qed.

(** * Further properties of the codec *)

(** ** hex: decoding undoes encoding *)

Lemma fromHexChar_hexdigit (i : Z) :
  0 <= i < 16 -> hex.fromHexChar (hex.hexdigit i) = Some i.
Proof.
  intros Hi. rewrite <- (Z2Nat.id i) at 2 by lia.
  assert (Hn : (Z.to_nat i < 16)%nat) by lia.
  unfold hex.hexdigit. revert Hn. generalize (Z.to_nat i) as n. intros n Hn.
  do 16 (destruct n as [| n]; [reflexivity |]). lia.
Qed.

Lemma nibbles_byte (v : byte) :
  byte_of_Z (Z.lor (Z.shiftl (Z.shiftr (byte_to_Z v) 4) 4) (Z.land (byte_to_Z v) 15)) = v.
Proof.
  pose proof (byte_to_Z_range v) as Hv.
  change 15 with (Z.ones 4). rewrite Z.land_ones, Z.shiftr_div_pow2 by lia.
  rewrite lor_shiftl_add by (try apply Z.mod_pos_bound; lia).
  rewrite <- (byte_of_to_Z v) at 3. f_equal.
  change (2 ^ 4) with 16. Z.div_mod_to_equations. lia.
Qed.

Lemma hex_DecodeString_EncodeToString (src : list byte) :
  hex.DecodeString (hex.EncodeToString src) = Some src.
Proof.
  induction src as [| v src IH]; [reflexivity |].
  cbn [hex.EncodeToString hex.DecodeString].
  pose proof (byte_to_Z_range v) as Hv.
  rewrite !fromHexChar_hexdigit, IH, nibbles_byte; [reflexivity | |].
  - change 15 with (Z.ones 4). rewrite Z.land_ones by lia. apply Z.mod_pos_bound. lia.
  - rewrite Z.shiftr_div_pow2 by lia. change (2 ^ 4) with 16.
    Z.div_mod_to_equations. lia.
Qed.

Lemma hex_EncodeToString_app (a b : list byte) :
  hex.EncodeToString (a ++ b)
  = (hex.EncodeToString a ++ hex.EncodeToString b)%string.
Proof.
  induction a as [| v a IH]; [reflexivity |].
  cbn [hex.EncodeToString app String.append]. rewrite IH. reflexivity.
Qed.

(** Eight bytes are sixteen digits already: [%016x] adds no padding. *)
Lemma Sprintf_016x_8 (b : list byte) :
  length b = 8%nat -> linkin.Sprintf_016x b = hex.EncodeToString b.
Proof.
  intros Hb. unfold linkin.Sprintf_016x.
  rewrite hex_EncodeToString_length, Hb. reflexivity.
Qed.

(** ** Export: the wire form written by [ToL5D] *)

Lemma ToL5D_trace64 (headers : http.Header) (traceID spanID parentID : list byte) :
  hex.DecodeString (http.Header_Get headers linkin.zipkinHeaderTraceID) = Some traceID ->
  hex.DecodeString (http.Header_Get headers linkin.zipkinHeaderSpanID) = Some spanID ->
  hex.DecodeString (http.Header_Get headers linkin.zipkinHeaderParentSpanID) = Some parentID ->
  length traceID = 8%nat -> length spanID = 8%nat ->
  linkin.ToL5D headers =
  (Returned,
   http.Header_Set headers linkin.l5dHeaderTrace
     (base64.EncodeToString
        (spanID ++ (if (length parentID =? 8)%nat then parentID else make 8)
           ++ traceID ++ linkin.l5dTraceFlags))).
Proof.
  intros Ht Hs Hp Hlt Hls. unfold linkin.ToL5D. rewrite Ht, Hs, Hp, Hlt, Hls.
  cbn [Nat.eqb orb negb].
  explode traceID Hlt. explode spanID Hls.
  destruct (length parentID =? 8)%nat eqn:Hlp.
  - apply Nat.eqb_eq in Hlp. explode parentID Hlp. reflexivity.
  - reflexivity.
Qed.

Lemma ToL5D_trace128 (headers : http.Header) (traceID spanID parentID : list byte) :
  hex.DecodeString (http.Header_Get headers linkin.zipkinHeaderTraceID) = Some traceID ->
  hex.DecodeString (http.Header_Get headers linkin.zipkinHeaderSpanID) = Some spanID ->
  hex.DecodeString (http.Header_Get headers linkin.zipkinHeaderParentSpanID) = Some parentID ->
  length traceID = 16%nat -> length spanID = 8%nat ->
  linkin.ToL5D headers = (Panicked, headers).
Proof.
  intros Ht Hs Hp Hlt Hls. unfold linkin.ToL5D. rewrite Ht, Hs, Hp, Hlt, Hls.
  cbn [Nat.eqb orb negb].
  explode traceID Hlt. explode spanID Hls.
  destruct (length parentID =? 8)%nat eqn:Hlp; [| reflexivity].
  apply Nat.eqb_eq in Hlp. explode parentID Hlp. reflexivity.
Qed.

(** X1. With a trace id and a span id of 8 bytes each and a parent id that
    decodes, [ToL5D] returns, and the header it writes decodes to 32 bytes:
    the span id, the parent id (eight zero bytes unless it has exactly 8
    bytes), the trace id and the flags [0 0 0 0 0 0 0 6]. *)
Theorem ToL5D_trace64_wire (headers : http.Header) (traceID spanID parentID : list byte) :
  hex.DecodeString (http.Header_Get headers linkin.zipkinHeaderTraceID) = Some traceID ->
  hex.DecodeString (http.Header_Get headers linkin.zipkinHeaderSpanID) = Some spanID ->
  hex.DecodeString (http.Header_Get headers linkin.zipkinHeaderParentSpanID) = Some parentID ->
  length traceID = 8%nat -> length spanID = 8%nat ->
  fst (linkin.ToL5D headers) = Returned /\
  base64.DecodeString
    (http.Header_Get (snd (linkin.ToL5D headers)) linkin.l5dHeaderTrace)
  = Some (spanID ++ (if (length parentID =? 8)%nat then parentID else make 8)
            ++ traceID ++ [x00; x00; x00; x00; x00; x00; x00; x06]).
Proof.
  intros Ht Hs Hp Hlt Hls.
  rewrite (ToL5D_trace64 headers traceID spanID parentID Ht Hs Hp Hlt Hls).
  cbn [fst snd]. split; [reflexivity |].
  rewrite Header_Get_Set_eq. apply DecodeString_EncodeToString.
Qed.

Lemma ToL5D_trace64_wire_witness :
  fst (linkin.ToL5D samples.b3_trace64) = Returned /\
  base64.DecodeString
    (http.Header_Get (snd (linkin.ToL5D samples.b3_trace64)) linkin.l5dHeaderTrace)
  = Some samples.wire32.
Proof.
  apply (ToL5D_trace64_wire samples.b3_trace64
           [x00; x00; x00; x00; x00; x00; x00; x42]
           [x01; x02; x03; x04; x05; x06; x07; x08] []); reflexivity.
Defined.

(** X2. [ToL5D] panics exactly when the trace id decodes to 16 bytes, the
    span id to 8 bytes and the parent id decodes. *)
Theorem ToL5D_panics_iff (headers : http.Header) :
  fst (linkin.ToL5D headers) = Panicked <->
  exists traceID spanID parentID,
    hex.DecodeString (http.Header_Get headers linkin.zipkinHeaderTraceID) = Some traceID /\
    hex.DecodeString (http.Header_Get headers linkin.zipkinHeaderSpanID) = Some spanID /\
    hex.DecodeString (http.Header_Get headers linkin.zipkinHeaderParentSpanID)
    = Some parentID /\
    length traceID = 16%nat /\ length spanID = 8%nat.
Proof.
  split.
  - intros Hpanic.
    destruct (hex.DecodeString (http.Header_Get headers linkin.zipkinHeaderTraceID))
      as [traceID |] eqn:Ht;
      [| unfold linkin.ToL5D in Hpanic; rewrite Ht in Hpanic; discriminate].
    destruct (hex.DecodeString (http.Header_Get headers linkin.zipkinHeaderSpanID))
      as [spanID |] eqn:Hs;
      [| unfold linkin.ToL5D in Hpanic; rewrite Ht, Hs in Hpanic; discriminate].
    destruct (hex.DecodeString (http.Header_Get headers linkin.zipkinHeaderParentSpanID))
      as [parentID |] eqn:Hp;
      [| unfold linkin.ToL5D in Hpanic; rewrite Ht, Hs, Hp in Hpanic; discriminate].
    exists traceID, spanID, parentID.
    destruct (Nat.eq_dec (length spanID) 8%nat) as [Hls | Hls].
    + destruct (Nat.eq_dec (length traceID) 16%nat) as [Hlt | Hlt]; [tauto |].
      exfalso. destruct (Nat.eq_dec (length traceID) 8%nat) as [Hlt8 | Hlt8].
      * rewrite (ToL5D_trace64 headers traceID spanID parentID) in Hpanic by assumption.
        discriminate.
      * unfold linkin.ToL5D in Hpanic. rewrite Ht, Hs, Hp in Hpanic.
        apply Nat.eqb_neq in Hlt, Hlt8. rewrite Hlt, Hlt8 in Hpanic. discriminate.
    + exfalso. unfold linkin.ToL5D in Hpanic. rewrite Ht, Hs, Hp in Hpanic.
      apply Nat.eqb_neq in Hls. rewrite Hls, orb_true_r in Hpanic. discriminate.
  - intros (traceID & spanID & parentID & Ht & Hs & Hp & Hlt & Hls).
    rewrite (ToL5D_trace128 headers traceID spanID parentID); trivial.
Qed.

(** ** Import: the B3 headers written by [FromL5D] *)

Lemma canonical_keys_b3 :
  http.CanonicalMIMEHeaderKey linkin.zipkinHeaderTraceID
  <> http.CanonicalMIMEHeaderKey linkin.zipkinHeaderSpanID /\
  http.CanonicalMIMEHeaderKey linkin.zipkinHeaderTraceID
  <> http.CanonicalMIMEHeaderKey linkin.zipkinHeaderParentSpanID /\
  http.CanonicalMIMEHeaderKey linkin.zipkinHeaderSpanID
  <> http.CanonicalMIMEHeaderKey linkin.zipkinHeaderParentSpanID /\
  http.CanonicalMIMEHeaderKey linkin.zipkinHeaderTraceID
  <> http.CanonicalMIMEHeaderKey linkin.l5dHeaderTrace /\
  http.CanonicalMIMEHeaderKey linkin.zipkinHeaderSpanID
  <> http.CanonicalMIMEHeaderKey linkin.l5dHeaderTrace /\
  http.CanonicalMIMEHeaderKey linkin.zipkinHeaderParentSpanID
  <> http.CanonicalMIMEHeaderKey linkin.l5dHeaderTrace.
Proof. repeat split; discriminate. Qed.

(** The values of the three B3 headers after [FromL5D], read with [Get]. *)
Lemma FromL5D_Get (headers : http.Header) (b : list byte) :
  base64.DecodeString (http.Header_Get headers linkin.l5dHeaderTrace) = Some b ->
  length b = 32%nat \/ length b = 40%nat ->
  http.Header_Get (linkin.FromL5D headers) linkin.zipkinHeaderTraceID
  = hex.EncodeToString
      (if (length b =? 40)%nat then slice b 32 40 ++ slice b 16 24 else slice b 16 24) /\
  http.Header_Get (linkin.FromL5D headers) linkin.zipkinHeaderSpanID
  = hex.EncodeToString (slice b 0 8) /\
  http.Header_Get (linkin.FromL5D headers) linkin.zipkinHeaderParentSpanID
  = hex.EncodeToString (slice b 8 16) /\
  http.Header_Get (linkin.FromL5D headers) linkin.l5dHeaderTrace
  = http.Header_Get headers linkin.l5dHeaderTrace.
Proof.
  intros Hb Hlen. rewrite (FromL5D_ok headers b Hb Hlen).
  pose proof canonical_keys_b3 as (K1 & K2 & K3 & K4 & K5 & K6).
  repeat split.
  - rewrite !Header_Get_Set_ne by congruence. rewrite Header_Get_Set_eq.
    destruct Hlen as [Hlen | Hlen]; rewrite Hlen; cbn [Nat.eqb].
    + apply Sprintf_016x_8. rewrite slice_length; lia.
    + rewrite hex_EncodeToString_app, !Sprintf_016x_8 by (rewrite slice_length; lia).
      reflexivity.
  - rewrite Header_Get_Set_ne by congruence. apply Header_Get_Set_eq.
  - apply Header_Get_Set_eq.
  - rewrite !Header_Get_Set_ne by congruence. reflexivity.
Qed.

(** X3. When the trace header decodes to 32 or 40 bytes, [FromL5D] sets
    [X-B3-SpanId] to the 16 digits of bytes [0:8] and [X-B3-TraceId] to the
    16 digits of bytes [16:24], preceded for a 40-byte header by the 16
    digits of bytes [32:40]; each key holds that one value afterwards. *)
Theorem FromL5D_trace_span_written (headers : http.Header) (b : list byte) :
  base64.DecodeString (http.Header_Get headers linkin.l5dHeaderTrace) = Some b ->
  length b = 32%nat \/ length b = 40%nat ->
  let traceID :=
    hex.EncodeToString
      (if (length b =? 40)%nat then slice b 32 40 ++ slice b 16 24 else slice b 16 24) in
  linkin.FromL5D headers !! http.CanonicalMIMEHeaderKey linkin.zipkinHeaderTraceID
  = Some [traceID] /\
  linkin.FromL5D headers !! http.CanonicalMIMEHeaderKey linkin.zipkinHeaderSpanID
  = Some [hex.EncodeToString (slice b 0 8)] /\
  String.length traceID = (if (length b =? 40)%nat then 32 else 16)%nat /\
  String.length (hex.EncodeToString (slice b 0 8)) = 16%nat.
Proof.
  intros Hb Hlen traceID.
  pose proof canonical_keys_b3 as (K1 & K2 & K3 & _).
  rewrite (FromL5D_ok headers b Hb Hlen).
  repeat split.
  - rewrite !lookup_Header_Set_ne by congruence.
    unfold http.Header_Set. rewrite lookup_insert_eq. subst traceID.
    destruct Hlen as [Hlen | Hlen]; rewrite Hlen; cbn [Nat.eqb].
    + rewrite Sprintf_016x_8 by (rewrite slice_length; lia). reflexivity.
    + rewrite hex_EncodeToString_app, !Sprintf_016x_8 by (rewrite slice_length; lia).
      reflexivity.
  - rewrite lookup_Header_Set_ne by congruence.
    unfold http.Header_Set. apply lookup_insert_eq.
  - subst traceID. rewrite hex_EncodeToString_length.
    destruct Hlen as [Hlen | Hlen]; rewrite Hlen; cbn [Nat.eqb];
      rewrite ?length_app, !slice_length by lia; reflexivity.
  - rewrite hex_EncodeToString_length, slice_length by lia. reflexivity.
Qed.

Lemma FromL5D_trace_span_written_witness :
  linkin.FromL5D samples.l5d_wire40 !! "X-B3-Traceid"%string
  = Some ["a0a1a2a3a4a5a6a70000000000000042"%string] /\
  linkin.FromL5D samples.l5d_wire40 !! "X-B3-Spanid"%string
  = Some ["0102030405060708"%string] /\
  String.length "a0a1a2a3a4a5a6a70000000000000042" = 32%nat /\
  String.length "0102030405060708" = 16%nat.
Proof.
  apply (FromL5D_trace_span_written samples.l5d_wire40 samples.wire40).
  - vm_compute. reflexivity.
  - right. reflexivity.
Defined.

Lemma ToL5D_panics_iff_witness : fst (linkin.ToL5D samples.b3_trace128) = Panicked.
Proof.
  apply (ToL5D_panics_iff samples.b3_trace128).
  exists [x00; x01; x02; x03; x04; x05; x06; x07; x08; x09; x0a; x0b; x0c; x0d; x0e; x0f],
    [x01; x02; x03; x04; x05; x06; x07; x08], [].
  repeat split; reflexivity.
Defined.

(** X4. [FromL5D] is idempotent: a second import of the same headers
    changes nothing. *)
Theorem FromL5D_idempotent (headers : http.Header) :
  linkin.FromL5D (linkin.FromL5D headers) = linkin.FromL5D headers.
Proof.
  destruct (base64.DecodeString (http.Header_Get headers linkin.l5dHeaderTrace))
    as [b |] eqn:Hb.
  - destruct (Nat.eq_dec (length b) 32%nat) as [H32 | H32];
      [| destruct (Nat.eq_dec (length b) 40%nat) as [H40 | H40]].
    3: { rewrite (FromL5D_malformed headers); [apply FromL5D_malformed |];
         rewrite Hb; split; assumption. }
    all: assert (Hlen : length b = 32%nat \/ length b = 40%nat) by tauto.
    all: destruct (FromL5D_Get headers b Hb Hlen) as (_ & _ & _ & Hsame).
    all: rewrite <- Hsame in Hb.
    all: rewrite (FromL5D_ok (linkin.FromL5D headers) b Hb Hlen).
    all: rewrite Hsame in Hb.
    all: rewrite (FromL5D_ok headers b Hb Hlen).
    all: pose proof canonical_keys_b3 as (K1 & K2 & K3 & _).
    all: apply map_eq; intros k; unfold http.Header_Set.
    all: rewrite !lookup_insert; repeat case_decide; congruence.
  - rewrite (FromL5D_malformed headers); [apply FromL5D_malformed |];
      rewrite Hb; exact I.
Qed.

(** ** Import and export, one after the other *)

(** X5. Import followed by export, 32-byte form: when the trace header
    decodes to 32 bytes, [ToL5D] after [FromL5D] returns and writes a header
    that decodes to the first 24 bytes of the original followed by the
    flags [0 0 0 0 0 0 0 6]: the ids are kept and the flags normalised. *)
Theorem FromL5D_ToL5D_wire32 (headers : http.Header) (b : list byte) :
  base64.DecodeString (http.Header_Get headers linkin.l5dHeaderTrace) = Some b ->
  length b = 32%nat ->
  let res := linkin.ToL5D (linkin.FromL5D headers) in
  fst res = Returned /\
  base64.DecodeString (http.Header_Get (snd res) linkin.l5dHeaderTrace)
  = Some (slice b 0 24 ++ [x00; x00; x00; x00; x00; x00; x00; x06]).
Proof.
  intros Hb Hlen.
  destruct (FromL5D_Get headers b Hb (or_introl Hlen)) as (Ht & Hs & Hp & _).
  rewrite Hlen in Ht. cbn [Nat.eqb] in Ht.
  cbv zeta.
  rewrite (ToL5D_trace64 (linkin.FromL5D headers)
             (slice b 16 24) (slice b 0 8) (slice b 8 16));
    rewrite ?Ht, ?Hs, ?Hp, ?slice_length by lia;
    try apply hex_DecodeString_EncodeToString; try reflexivity.
  cbn [fst snd Nat.eqb]. split; [reflexivity |].
  rewrite Header_Get_Set_eq, DecodeString_EncodeToString.
  explode b Hlen. reflexivity.
Qed.

Lemma FromL5D_ToL5D_wire32_witness :
  let res := linkin.ToL5D (linkin.FromL5D samples.l5d_wire32) in
  fst res = Returned /\
  base64.DecodeString (http.Header_Get (snd res) linkin.l5dHeaderTrace)
  = Some samples.wire32.
Proof.
  apply (FromL5D_ToL5D_wire32 samples.l5d_wire32 samples.wire32).
  - vm_compute. reflexivity.
  - reflexivity.
Defined.

(** X6. Import followed by export, 40-byte form: when the trace header
    decodes to 40 bytes, [FromL5D] writes a trace id of 32 digits, and
    [ToL5D] on the result panics, leaving the imported headers as they
    are. *)
Theorem FromL5D_ToL5D_wire40_panics (headers : http.Header) (b : list byte) :
  base64.DecodeString (http.Header_Get headers linkin.l5dHeaderTrace) = Some b ->
  length b = 40%nat ->
  linkin.ToL5D (linkin.FromL5D headers) = (Panicked, linkin.FromL5D headers).
Proof.
  intros Hb Hlen.
  destruct (FromL5D_Get headers b Hb (or_intror Hlen)) as (Ht & Hs & Hp & _).
  rewrite Hlen in Ht. cbn [Nat.eqb] in Ht.
  apply (ToL5D_trace128 (linkin.FromL5D headers)
           (slice b 32 40 ++ slice b 16 24) (slice b 0 8) (slice b 8 16));
    rewrite ?Ht, ?Hs, ?Hp, ?length_app, ?slice_length by lia;
    try apply hex_DecodeString_EncodeToString; reflexivity.
Qed.

Lemma FromL5D_ToL5D_wire40_panics_witness :
  linkin.ToL5D (linkin.FromL5D samples.l5d_wire40)
  = (Panicked, linkin.FromL5D samples.l5d_wire40).
Proof.
  apply (FromL5D_ToL5D_wire40_panics samples.l5d_wire40 samples.wire40).
  - vm_compute. reflexivity.
  - reflexivity.
Defined.

(** X7. Export followed by import, 64-bit trace id: [FromL5D] after
    [ToL5D] sets the trace id and the span id to the lower-case digits of
    the bytes that were exported, and the parent id to those of the
    exported parent, which are sixteen zeros when the parent id had not
    exactly 8 bytes (a missing header among them). *)
Theorem ToL5D_FromL5D_trace64 (headers : http.Header)
    (traceID spanID parentID : list byte) :
  hex.DecodeString (http.Header_Get headers linkin.zipkinHeaderTraceID) = Some traceID ->
  hex.DecodeString (http.Header_Get headers linkin.zipkinHeaderSpanID) = Some spanID ->
  hex.DecodeString (http.Header_Get headers linkin.zipkinHeaderParentSpanID) = Some parentID ->
  length traceID = 8%nat -> length spanID = 8%nat ->
  let headers' := linkin.FromL5D (snd (linkin.ToL5D headers)) in
  http.Header_Get headers' linkin.zipkinHeaderTraceID = hex.EncodeToString traceID /\
  http.Header_Get headers' linkin.zipkinHeaderSpanID = hex.EncodeToString spanID /\
  http.Header_Get headers' linkin.zipkinHeaderParentSpanID
  = (if (length parentID =? 8)%nat then hex.EncodeToString parentID
     else "0000000000000000"%string).
Proof.
  intros Ht Hs Hp Hlt Hls. cbv zeta.
  rewrite (ToL5D_trace64 headers traceID spanID parentID Ht Hs Hp Hlt Hls).
  cbn [snd].
  set (w := spanID ++ _ ++ traceID ++ linkin.l5dTraceFlags).
  assert (Hw : base64.DecodeString
                 (http.Header_Get
                    (http.Header_Set headers linkin.l5dHeaderTrace
                       (base64.EncodeToString w)) linkin.l5dHeaderTrace) = Some w)
    by (rewrite Header_Get_Set_eq; apply DecodeString_EncodeToString).
  assert (Hlw : length w = 32%nat).
  { subst w. rewrite !length_app, Hlt, Hls.
    destruct (length parentID =? 8)%nat eqn:Hlp;
      [apply Nat.eqb_eq in Hlp; rewrite Hlp |]; reflexivity. }
  destruct (FromL5D_Get _ w Hw (or_introl Hlw)) as (Ht' & Hs' & Hp' & _).
  rewrite Ht', Hs', Hp', Hlw. cbn [Nat.eqb]. subst w.
  explode traceID Hlt. explode spanID Hls.
  destruct (length parentID =? 8)%nat eqn:Hlp.
  - apply Nat.eqb_eq in Hlp. explode parentID Hlp. repeat split.
  - repeat split.
Qed.

Lemma ToL5D_FromL5D_trace64_witness :
  let headers' := linkin.FromL5D (snd (linkin.ToL5D samples.b3_trace64)) in
  http.Header_Get headers' linkin.zipkinHeaderTraceID = "0000000000000042"%string /\
  http.Header_Get headers' linkin.zipkinHeaderSpanID = "0102030405060708"%string /\
  http.Header_Get headers' linkin.zipkinHeaderParentSpanID = "0000000000000000"%string.
Proof.
  apply (ToL5D_FromL5D_trace64 samples.b3_trace64
           [x00; x00; x00; x00; x00; x00; x00; x42]
           [x01; x02; x03; x04; x05; x06; x07; x08] []); reflexivity.
Defined.

(** ** Missing headers *)

Lemma Header_Get_missing (headers : http.Header) (key : string) :
  headers !! http.CanonicalMIMEHeaderKey key = None ->
  http.Header_Get headers key = EmptyString.
Proof. intros H. unfold http.Header_Get. rewrite H. reflexivity. Qed.

(** X8. A header set without [l5d-ctx-trace] is left as it is by [FromL5D]
    and gives the zero context with [ok = false]; a header set without
    [X-B3-TraceId], or without [X-B3-SpanId], is left as it is by [ToL5D],
    which returns: the empty value decodes to no bytes at all, and the
    length guards reject it. *)
Theorem missing_header_rejected (salt : Z) (pf : string -> option example.float64)
    (headers : http.Header) :
  (headers !! http.CanonicalMIMEHeaderKey linkin.l5dHeaderTrace = None ->
   linkin.FromL5D headers = headers /\
   example.SpanContextFromRequest salt pf {| http.Header_ := headers |}
   = (example.zeroSpanContext, false)) /\
  (headers !! http.CanonicalMIMEHeaderKey linkin.zipkinHeaderTraceID = None \/
   headers !! http.CanonicalMIMEHeaderKey linkin.zipkinHeaderSpanID = None ->
   linkin.ToL5D headers = (Returned, headers)).
Proof.
  split.
  - intros Hnone. apply Header_Get_missing in Hnone. split.
    + apply FromL5D_malformed. rewrite Hnone. split; discriminate.
    + apply SpanContextFromRequest_malformed. cbn [http.Header_].
      change example.l5dHeaderTrace with linkin.l5dHeaderTrace.
      rewrite Hnone. split; discriminate.
  - intros [Hnone | Hnone]; apply Header_Get_missing in Hnone;
      unfold linkin.ToL5D; rewrite Hnone; cbn [hex.DecodeString].
    + destruct (hex.DecodeString _); [| reflexivity].
      destruct (hex.DecodeString _); reflexivity.
    + destruct (hex.DecodeString _); [| reflexivity].
      destruct (hex.DecodeString _); [| reflexivity].
      cbn [length Nat.eqb negb]. rewrite orb_true_r. reflexivity.
Qed.

Lemma missing_header_rejected_witness :
  (linkin.FromL5D samples.b3_trace64 = samples.b3_trace64 /\
   example.SpanContextFromRequest samples.sampleSalt samples.ParseFloat
     {| http.Header_ := samples.b3_trace64 |}
   = (example.zeroSpanContext, false)) /\
  linkin.ToL5D samples.l5d_wire32 = (Returned, samples.l5d_wire32).
Proof.
  split.
  - apply (missing_header_rejected samples.sampleSalt samples.ParseFloat
             samples.b3_trace64). reflexivity.
  - apply (missing_header_rejected samples.sampleSalt samples.ParseFloat
             samples.l5d_wire32). left. reflexivity.
Defined.

(** ** Extraction: the context built by [SpanContextFromRequest] *)

Lemma copy_length (dst src : list byte) (lo hi : nat) :
  (lo <= hi)%nat -> (hi <= length dst)%nat -> length (copy dst lo hi src) = length dst.
Proof.
  intros Hlo Hhi. unfold copy.
  rewrite !length_app, !length_firstn, length_skipn. lia.
Qed.

Lemma make_length (n : nat) : length (make n) = n.
Proof. apply repeat_length. Qed.

Ltac solve_lengths :=
  repeat first [rewrite make_length | rewrite copy_length]; try lia.

(** X9. [SpanContextFromRequest] reports [ok = true] exactly when the trace
    header is base64 and decodes to 32 or to 40 bytes; the sample header
    has no part in it. *)
Theorem SpanContextFromRequest_ok_iff (salt : Z) (pf : string -> option example.float64)
    (r : http.Request) :
  snd (example.SpanContextFromRequest salt pf r) = true <->
  exists b,
    base64.DecodeString (http.Header_Get (http.Header_ r) example.l5dHeaderTrace) = Some b /\
    (length b = 32%nat \/ length b = 40%nat).
Proof.
  split.
  - intros Hok.
    destruct (base64.DecodeString (http.Header_Get (http.Header_ r) example.l5dHeaderTrace))
      as [b |] eqn:Hb.
    + exists b. split; [reflexivity |].
      destruct (Nat.eq_dec (length b) 32%nat) as [H32 | H32]; [tauto |].
      destruct (Nat.eq_dec (length b) 40%nat) as [H40 | H40]; [tauto |].
      rewrite SpanContextFromRequest_malformed in Hok; [discriminate |].
      rewrite Hb. tauto.
    + rewrite SpanContextFromRequest_malformed in Hok; [discriminate |].
      rewrite Hb. exact I.
  - intros (b & Hb & Hlen).
    rewrite (SpanContextFromRequest_ok salt pf r b Hb Hlen). reflexivity.
Qed.

Lemma SpanContextFromRequest_ok_iff_witness :
  snd (example.SpanContextFromRequest samples.sampleSalt samples.ParseFloat
         {| http.Header_ := samples.l5d_wire40 |}) = true.
Proof.
  apply (SpanContextFromRequest_ok_iff samples.sampleSalt samples.ParseFloat
           {| http.Header_ := samples.l5d_wire40 |}).
  exists samples.wire40. split; [vm_compute; reflexivity | right; reflexivity].
Defined.

(** X10. Whatever the request, the context returned has a trace id of 16
    bytes and a span id of 8 bytes, and its options are 0 or 1. *)
Theorem SpanContextFromRequest_shape (salt : Z) (pf : string -> option example.float64)
    (r : http.Request) :
  let ctx := fst (example.SpanContextFromRequest salt pf r) in
  length (example.TraceID ctx) = 16%nat /\
  length (example.SpanID ctx) = 8%nat /\
  (example.TraceOptions ctx = 0 \/ example.TraceOptions ctx = 1).
Proof.
  cbv zeta.
  destruct (base64.DecodeString (http.Header_Get (http.Header_ r) example.l5dHeaderTrace))
    as [b |] eqn:Hb.
  - destruct (Nat.eq_dec (length b) 32%nat) as [H32 | H32];
      [| destruct (Nat.eq_dec (length b) 40%nat) as [H40 | H40]].
    3: { rewrite SpanContextFromRequest_malformed by (rewrite Hb; tauto).
         cbn. tauto. }
    all: assert (Hlen : length b = 32%nat \/ length b = 40%nat) by tauto.
    all: rewrite (SpanContextFromRequest_ok salt pf r b Hb Hlen).
    all: cbv zeta; cbn [fst example.TraceID example.SpanID example.TraceOptions].
    all: split; [| split].
    all: first
      [ destruct (pf _) as [rate |]; [destruct (example.sample _ _ _) |]; tauto
      | destruct (length b =? 40)%nat; solve_lengths ].
  - rewrite SpanContextFromRequest_malformed by (rewrite Hb; exact I).
    cbn. tauto.
Qed.

(** X11. A trace header of 40 bytes gives the trace id made of wire bytes
    [32:40] followed by wire bytes [16:24], and the span id of wire bytes
    [0:8]. *)
Theorem SpanContextFromRequest_wire40 (salt : Z) (pf : string -> option example.float64)
    (r : http.Request) (b : list byte) :
  base64.DecodeString (http.Header_Get (http.Header_ r) example.l5dHeaderTrace) = Some b ->
  length b = 40%nat ->
  let res := example.SpanContextFromRequest salt pf r in
  snd res = true /\
  example.TraceID (fst res) = slice b 32 40 ++ slice b 16 24 /\
  example.SpanID (fst res) = slice b 0 8.
Proof.
  intros Hb Hlen.
  rewrite (SpanContextFromRequest_ok salt pf r b Hb (or_intror Hlen)).
  rewrite Hlen. cbv zeta. cbn [fst snd example.TraceID example.SpanID Nat.eqb].
  explode b Hlen. repeat split.
Qed.

Lemma SpanContextFromRequest_wire40_witness :
  let res := example.SpanContextFromRequest samples.sampleSalt samples.ParseFloat
               {| http.Header_ := samples.l5d_wire40 |} in
  snd res = true /\
  example.TraceID (fst res) = slice samples.wire40 32 40 ++ slice samples.wire40 16 24 /\
  example.SpanID (fst res) = slice samples.wire40 0 8.
Proof.
  apply (SpanContextFromRequest_wire40 samples.sampleSalt samples.ParseFloat
           {| http.Header_ := samples.l5d_wire40 |} samples.wire40).
  - vm_compute. reflexivity.
  - reflexivity.
Defined.

(** X12. The parent id and the flags of the wire form are not read: two
    requests whose trace headers decode to the same length and agree on
    bytes [0:8], [16:24] and [32:40], and whose sample headers are equal,
    give the same result. *)
Theorem SpanContextFromRequest_ignores_parent_and_flags (salt : Z)
    (pf : string -> option example.float64) (r r' : http.Request) (b b' : list byte) :
  base64.DecodeString (http.Header_Get (http.Header_ r) example.l5dHeaderTrace) = Some b ->
  base64.DecodeString (http.Header_Get (http.Header_ r') example.l5dHeaderTrace) = Some b' ->
  length b = 32%nat \/ length b = 40%nat ->
  length b' = length b ->
  slice b' 0 8 = slice b 0 8 ->
  slice b' 16 24 = slice b 16 24 ->
  slice b' 32 40 = slice b 32 40 ->
  http.Header_Get (http.Header_ r') example.l5dHeaderSample
  = http.Header_Get (http.Header_ r) example.l5dHeaderSample ->
  example.SpanContextFromRequest salt pf r' = example.SpanContextFromRequest salt pf r.
Proof.
  intros Hb Hb' Hlen Hlen' E0 E16 E32 Es.
  assert (Hlen2 : length b' = 32%nat \/ length b' = 40%nat) by (rewrite Hlen'; exact Hlen).
  rewrite (SpanContextFromRequest_ok salt pf r b Hb Hlen).
  rewrite (SpanContextFromRequest_ok salt pf r' b' Hb' Hlen2).
  rewrite Es, E0, E16, Hlen'.
  destruct Hlen as [Hlen | Hlen]; rewrite Hlen; cbn [Nat.eqb]; [reflexivity |].
  rewrite E32. reflexivity.
Qed.

Lemma SpanContextFromRequest_ignores_parent_and_flags_witness :
  example.SpanContextFromRequest samples.sampleSalt samples.ParseFloat
    {| http.Header_ :=
         http.Header_Set ∅ example.l5dHeaderTrace
           (base64.EncodeToString
              (slice samples.wire32 0 8 ++ repeat xff 8 ++ slice samples.wire32 16 24
                 ++ repeat xff 8)) |}
  = example.SpanContextFromRequest samples.sampleSalt samples.ParseFloat
      {| http.Header_ := samples.l5d_wire32 |}.
Proof.
  apply (SpanContextFromRequest_ignores_parent_and_flags samples.sampleSalt
           samples.ParseFloat {| http.Header_ := samples.l5d_wire32 |} _ samples.wire32
           (slice samples.wire32 0 8 ++ repeat xff 8 ++ slice samples.wire32 16 24
              ++ repeat xff 8)).
  - vm_compute. reflexivity.
  - vm_compute. reflexivity.
  - left. reflexivity.
  - reflexivity.
  - reflexivity.
  - reflexivity.
  - reflexivity.
  - reflexivity.
Defined.

(** ** The sampled flag *)

Lemma SpanContextFromRequest_sampled_inv (salt : Z)
    (pf : string -> option example.float64) (r : http.Request) :
  example.IsSampled (fst (example.SpanContextFromRequest salt pf r)) = true ->
  exists rate,
    pf (http.Header_Get (http.Header_ r) example.l5dHeaderSample) = Some rate /\
    SFltb rate example.f0_0 = true.
Proof.
  intros Hs.
  destruct (base64.DecodeString (http.Header_Get (http.Header_ r) example.l5dHeaderTrace))
    as [b |] eqn:Hb.
  - destruct (Nat.eq_dec (length b) 32%nat) as [H32 | H32];
      [| destruct (Nat.eq_dec (length b) 40%nat) as [H40 | H40]].
    3: { rewrite SpanContextFromRequest_malformed in Hs by (rewrite Hb; tauto).
         discriminate. }
    all: assert (Hlen : length b = 32%nat \/ length b = 40%nat) by tauto.
    all: rewrite (SpanContextFromRequest_ok salt pf r b Hb Hlen) in Hs.
    all: cbv zeta in Hs; unfold example.IsSampled in Hs.
    all: cbn [fst example.TraceOptions] in Hs.
    all: destruct (pf _) as [rate |]; [| discriminate].
    all: exists rate; split; [reflexivity |].
    all: rewrite sample_spec in Hs.
    all: destruct (SFltb rate example.f0_0); [reflexivity | discriminate].
  - rewrite SpanContextFromRequest_malformed in Hs by (rewrite Hb; exact I).
    discriminate.
Qed.

(** X13. The context extracted from a request is sampled exactly when the
    trace header is accepted and the sample header parses as a rate below
    zero. A header that does not parse, a NaN and every rate from zero up,
    [1.0] among them, leave it unsampled. *)
Theorem SpanContextFromRequest_sampled_iff (salt : Z)
    (pf : string -> option example.float64) (r : http.Request) :
  example.IsSampled (fst (example.SpanContextFromRequest salt pf r)) = true <->
  snd (example.SpanContextFromRequest salt pf r) = true /\
  exists rate,
    pf (http.Header_Get (http.Header_ r) example.l5dHeaderSample) = Some rate /\
    SFltb rate example.f0_0 = true.
Proof.
  split.
  - intros Hs. split; [| exact (SpanContextFromRequest_sampled_inv salt pf r Hs)].
    destruct (example.SpanContextFromRequest salt pf r) as [ctx ok] eqn:E.
    destruct ok; [reflexivity |]. exfalso.
    destruct (base64.DecodeString (http.Header_Get (http.Header_ r) example.l5dHeaderTrace))
      as [b |] eqn:Hb.
    + destruct (Nat.eq_dec (length b) 32%nat) as [H32 | H32];
        [| destruct (Nat.eq_dec (length b) 40%nat) as [H40 | H40]].
      * rewrite (SpanContextFromRequest_ok salt pf r b Hb (or_introl H32)) in E.
        discriminate.
      * rewrite (SpanContextFromRequest_ok salt pf r b Hb (or_intror H40)) in E.
        discriminate.
      * rewrite SpanContextFromRequest_malformed in E by (rewrite Hb; tauto).
        injection E as <-. discriminate.
    + rewrite SpanContextFromRequest_malformed in E by (rewrite Hb; exact I).
      injection E as <-. discriminate.
  - intros [Hok (rate & Hrate & Hneg)].
    destruct (base64.DecodeString (http.Header_Get (http.Header_ r) example.l5dHeaderTrace))
      as [b |] eqn:Hb.
    + destruct (Nat.eq_dec (length b) 32%nat) as [H32 | H32];
        [| destruct (Nat.eq_dec (length b) 40%nat) as [H40 | H40]].
      3: { rewrite SpanContextFromRequest_malformed in Hok by (rewrite Hb; tauto).
           discriminate. }
      all: assert (Hlen : length b = 32%nat \/ length b = 40%nat) by tauto.
      all: rewrite (SpanContextFromRequest_ok salt pf r b Hb Hlen).
      all: cbv zeta; unfold example.IsSampled; cbn [fst example.TraceOptions].
      all: rewrite Hrate, sample_spec, Hneg; reflexivity.
    + rewrite SpanContextFromRequest_malformed in Hok by (rewrite Hb; exact I).
      discriminate.
Qed.

Lemma SpanContextFromRequest_sampled_iff_witness :
  example.IsSampled
    (fst (example.SpanContextFromRequest samples.sampleSalt samples.ParseFloat
            {| http.Header_ := samples.l5d_wire40 |})) = true.
Proof.
  apply (SpanContextFromRequest_sampled_iff samples.sampleSalt samples.ParseFloat
           {| http.Header_ := samples.l5d_wire40 |}).
  split; [vm_compute; reflexivity |].
  exists samples.minus_one. split; reflexivity.
Defined.

(** ** Injection: the headers written by [SpanContextToRequest] *)

Lemma SpanContextToRequest_sample_Get (sc : example.SpanContext) (r : http.Request) :
  example.IsSampled sc = true ->
  http.Header_Get (http.Header_ (example.SpanContextToRequest sc r)) example.l5dHeaderSample
  = example.l5dForceSample.
Proof.
  intros Hs. unfold example.SpanContextToRequest. rewrite Hs. cbn [http.Header_].
  apply Header_Get_Set_eq.
Qed.

(** X14. Forced sampling does not survive the hop: when ["1.0"] parses as
    the rate 1.0, the context extracted from a request into which a sampled
    context was injected is not sampled. *)
Theorem forced_sampling_not_extracted (salt : Z) (pf : string -> option example.float64)
    (sc : example.SpanContext) (r : http.Request) :
  pf example.l5dForceSample = Some example.f1_0 ->
  example.IsSampled sc = true ->
  example.IsSampled
    (fst (example.SpanContextFromRequest salt pf (example.SpanContextToRequest sc r)))
  = false.
Proof.
  intros Hpf Hs.
  destruct (example.IsSampled (fst _)) eqn:E; [| reflexivity].
  apply SpanContextFromRequest_sampled_inv in E as (rate & Hrate & Hneg).
  rewrite (SpanContextToRequest_sample_Get sc r Hs), Hpf in Hrate.
  injection Hrate as <-. discriminate Hneg.
Qed.

Lemma forced_sampling_not_extracted_witness :
  example.IsSampled
    (fst (example.SpanContextFromRequest samples.sampleSalt samples.ParseFloat
            (example.SpanContextToRequest samples.span_context {| http.Header_ := ∅ |})))
  = false.
Proof.
  apply (forced_sampling_not_extracted samples.sampleSalt samples.ParseFloat
           samples.span_context {| http.Header_ := ∅ |}); reflexivity.
Defined.

(** X15. The trace header written by [SpanContextToRequest] always decodes
    to 40 bytes; for a trace id of 16 bytes and a span id of 8 bytes these
    are the span id, eight zero bytes for the parent, bytes [8:16] of the
    trace id, the flags [0 0 0 0 0 0 0 6] and bytes [0:8] of the trace id. *)
Theorem SpanContextToRequest_wire (sc : example.SpanContext) (r : http.Request) :
  exists w,
    base64.DecodeString
      (http.Header_Get (http.Header_ (example.SpanContextToRequest sc r))
         example.l5dHeaderTrace) = Some w /\
    length w = 40%nat /\
    (length (example.TraceID sc) = 16%nat -> length (example.SpanID sc) = 8%nat ->
     w = example.SpanID sc ++ make 8 ++ slice (example.TraceID sc) 8 16
           ++ [x00; x00; x00; x00; x00; x00; x00; x06]
           ++ slice (example.TraceID sc) 0 8).
Proof.
  eexists. split; [| split].
  - rewrite SpanContextToRequest_trace_header. apply DecodeString_EncodeToString.
  - solve_lengths.
  - intros Ht Hs. destruct sc as [tid sid opts].
    cbn [example.TraceID example.SpanID] in *.
    explode tid Ht. explode sid Hs. reflexivity.
Qed.

Lemma SpanContextToRequest_wire_witness :
  base64.DecodeString
    (http.Header_Get
       (http.Header_ (example.SpanContextToRequest samples.span_context
                        {| http.Header_ := ∅ |}))
       example.l5dHeaderTrace)
  = Some samples.wire40.
Proof.
  destruct (SpanContextToRequest_wire samples.span_context {| http.Header_ := ∅ |})
    as (w & Hw & _ & Hlayout).
  rewrite Hw, Hlayout; reflexivity.
Defined.

(** X16. [SpanContextToRequest] changes no key of the request's header
    other than [l5d-ctx-trace] and [l5d-sample]. *)
Theorem SpanContextToRequest_frame (sc : example.SpanContext) (r : http.Request)
    (k : string) :
  k <> http.CanonicalMIMEHeaderKey example.l5dHeaderTrace ->
  k <> http.CanonicalMIMEHeaderKey example.l5dHeaderSample ->
  http.Header_ (example.SpanContextToRequest sc r) !! k = http.Header_ r !! k.
Proof.
  intros Ht Hs. unfold example.SpanContextToRequest.
  destruct (example.IsSampled sc); cbn [http.Header_];
    rewrite !lookup_Header_Set_ne by assumption; reflexivity.
Qed.

Lemma SpanContextToRequest_frame_witness :
  http.Header_ (example.SpanContextToRequest samples.span_context
                  {| http.Header_ := samples.b3_trace64 |}) !! "X-B3-Traceid"%string
  = samples.b3_trace64 !! "X-B3-Traceid"%string.
Proof.
  apply (SpanContextToRequest_frame samples.span_context
           {| http.Header_ := samples.b3_trace64 |}); discriminate.
Defined.

(** ** The two codecs on one wire form *)

Lemma SpanContextToRequest_wire_layout (sc : example.SpanContext) (r : http.Request) :
  length (example.TraceID sc) = 16%nat ->
  length (example.SpanID sc) = 8%nat ->
  let w := example.SpanID sc ++ make 8 ++ slice (example.TraceID sc) 8 16
             ++ example.l5dTraceFlags ++ slice (example.TraceID sc) 0 8 in
  base64.DecodeString
    (http.Header_Get (http.Header_ (example.SpanContextToRequest sc r))
       linkin.l5dHeaderTrace) = Some w /\
  length w = 40%nat.
Proof.
  intros Ht Hs. cbv zeta.
  change linkin.l5dHeaderTrace with example.l5dHeaderTrace.
  rewrite SpanContextToRequest_trace_header, DecodeString_EncodeToString.
  destruct sc as [tid sid opts]. cbn [example.TraceID example.SpanID] in *.
  explode tid Ht. explode sid Hs. split; reflexivity.
Qed.

(** X17. B3 headers imported from an injected context: after
    [SpanContextToRequest], [FromL5D] sets [X-B3-TraceId] to the 32 digits
    of the context's trace id, [X-B3-SpanId] to the 16 digits of its span
    id, and [X-B3-ParentSpanId] to sixteen zeros. *)
Theorem SpanContextToRequest_FromL5D (sc : example.SpanContext) (r : http.Request) :
  length (example.TraceID sc) = 16%nat ->
  length (example.SpanID sc) = 8%nat ->
  let headers := linkin.FromL5D (http.Header_ (example.SpanContextToRequest sc r)) in
  http.Header_Get headers linkin.zipkinHeaderTraceID
  = hex.EncodeToString (example.TraceID sc) /\
  http.Header_Get headers linkin.zipkinHeaderSpanID
  = hex.EncodeToString (example.SpanID sc) /\
  http.Header_Get headers linkin.zipkinHeaderParentSpanID = "0000000000000000"%string.
Proof.
  intros Ht Hs. cbv zeta.
  destruct (SpanContextToRequest_wire_layout sc r Ht Hs) as (Hw & Hlw).
  destruct (FromL5D_Get _ _ Hw (or_intror Hlw)) as (Ht' & Hs' & Hp' & _).
  rewrite Ht', Hs', Hp', Hlw. cbn [Nat.eqb].
  destruct sc as [tid sid opts]. cbn [example.TraceID example.SpanID] in *.
  explode tid Ht. explode sid Hs. repeat split.
Qed.

Lemma SpanContextToRequest_FromL5D_witness :
  let headers :=
    linkin.FromL5D
      (http.Header_ (example.SpanContextToRequest samples.span_context
                       {| http.Header_ := ∅ |})) in
  http.Header_Get headers linkin.zipkinHeaderTraceID
  = "a0a1a2a3a4a5a6a70000000000000042"%string /\
  http.Header_Get headers linkin.zipkinHeaderSpanID = "0102030405060708"%string /\
  http.Header_Get headers linkin.zipkinHeaderParentSpanID = "0000000000000000"%string.
Proof.
  apply (SpanContextToRequest_FromL5D samples.span_context {| http.Header_ := ∅ |});
    reflexivity.
Defined.

(** X18. A context extracted from exported B3 headers: after [ToL5D] on a
    trace id and a span id of 8 bytes each, [SpanContextFromRequest]
    accepts the request and gives the span id back, and the trace id behind
    eight zero bytes. *)
Theorem ToL5D_SpanContextFromRequest (salt : Z) (pf : string -> option example.float64)
    (headers : http.Header) (traceID spanID parentID : list byte) :
  hex.DecodeString (http.Header_Get headers linkin.zipkinHeaderTraceID) = Some traceID ->
  hex.DecodeString (http.Header_Get headers linkin.zipkinHeaderSpanID) = Some spanID ->
  hex.DecodeString (http.Header_Get headers linkin.zipkinHeaderParentSpanID) = Some parentID ->
  length traceID = 8%nat -> length spanID = 8%nat ->
  let res := example.SpanContextFromRequest salt pf
               {| http.Header_ := snd (linkin.ToL5D headers) |} in
  snd res = true /\
  example.TraceID (fst res) = make 8 ++ traceID /\
  example.SpanID (fst res) = spanID.
Proof.
  intros Ht Hs Hp Hlt Hls. cbv zeta.
  rewrite (ToL5D_trace64 headers traceID spanID parentID Ht Hs Hp Hlt Hls).
  cbn [snd].
  set (w := spanID ++ _ ++ traceID ++ linkin.l5dTraceFlags).
  assert (Hlw : length w = 32%nat).
  { subst w. rewrite !length_app, Hlt, Hls.
    destruct (length parentID =? 8)%nat eqn:Hlp;
      [apply Nat.eqb_eq in Hlp; rewrite Hlp |]; reflexivity. }
  erewrite SpanContextFromRequest_ok with (b := w);
    [| cbn [http.Header_]; change example.l5dHeaderTrace with linkin.l5dHeaderTrace;
       rewrite Header_Get_Set_eq; apply DecodeString_EncodeToString
     | left; exact Hlw].
  rewrite Hlw. cbv zeta. cbn [fst snd example.TraceID example.SpanID Nat.eqb].
  subst w. explode traceID Hlt. explode spanID Hls.
  destruct (length parentID =? 8)%nat eqn:Hlp.
  - apply Nat.eqb_eq in Hlp. explode parentID Hlp. repeat split.
  - repeat split.
Qed.

Lemma ToL5D_SpanContextFromRequest_witness :
  let res := example.SpanContextFromRequest samples.sampleSalt samples.ParseFloat
               {| http.Header_ := snd (linkin.ToL5D samples.b3_trace64) |} in
  snd res = true /\
  example.TraceID (fst res) = make 8 ++ [x00; x00; x00; x00; x00; x00; x00; x42] /\
  example.SpanID (fst res) = [x01; x02; x03; x04; x05; x06; x07; x08].
Proof.
  apply (ToL5D_SpanContextFromRequest samples.sampleSalt samples.ParseFloat
           samples.b3_trace64 [x00; x00; x00; x00; x00; x00; x00; x42]
           [x01; x02; x03; x04; x05; x06; x07; x08] []); reflexivity.
Defined.

(** ** Export twice *)

(** X19. [ToL5D] is idempotent: it reads the B3 headers alone, so a second
    export ends as the first did and leaves the headers of the first. *)
Theorem ToL5D_idempotent (headers : http.Header) :
  linkin.ToL5D (snd (linkin.ToL5D headers)) = linkin.ToL5D headers.
Proof.
  destruct (ToL5D_cases headers) as [E | [E | [value E]]];
    rewrite E; cbn [fst snd]; try exact E.
  pose proof canonical_keys_b3 as (_ & _ & _ & K4 & K5 & K6).
  revert E. unfold linkin.ToL5D.
  rewrite !Header_Get_Set_ne by congruence.
  destruct (hex.DecodeString _) as [traceID |];
    [| intros E; injection E as <-; reflexivity].
  destruct (hex.DecodeString _) as [spanID |];
    [| intros E; injection E as <-; reflexivity].
  destruct (hex.DecodeString _) as [parentID |];
    [| intros E; injection E as <-; reflexivity].
  destruct (negb _ || negb _); [intros E; injection E as <-; reflexivity |].
  cbv zeta. destruct (_ ≫= _) as [l5dctx |]; [| discriminate].
  intros E. injection E as E. f_equal.
  assert (Hv : base64.EncodeToString l5dctx = value).
  { apply (f_equal (fun h => http.Header_Get h linkin.l5dHeaderTrace)) in E.
    rewrite !Header_Get_Set_eq in E. exact E. }
  rewrite Hv. unfold http.Header_Set. apply insert_insert_eq.
Qed.
